(** * Research planner and executor agent: provider adapters and pipeline driver

    A shallow embedding of [llm_client.py] (the two provider adapters
    [GeminiClient] and [OpenAICompatibleClient]) and of
    [research_planner_executor_agent.py] (the task parser [parse_tasks] and
    the button handlers of the Streamlit script), followed by the properties
    of the specification that were checked against them.

    Conventions.
    - A Python [str] is a [string]; each character stands for the code point
      of the same number, so the texts handled by the parser are those whose
      code points lie below 256.
    - A value that may be [None] is an [option].
    - The remote services (model backend, search provider) are deterministic
      oracles indexed by the number of remote calls made so far; a reply is
      either a value or a raised exception.
    - Adapter and driver code runs in the monad [M]: it threads the call
      counter, collects the events sent to the display and to the remote
      services, and ends by returning a value or by raising. *)

From Stdlib Require Import ZArith List String Ascii Bool Lia SpecFloat Sorted.
Import ListNotations.

Local Open Scope list_scope.
Local Open Scope string_scope.

(* ===================================================================== *)
(** * Python primitives *)
(* ===================================================================== *)

Module Py.

(** The newline character and the one-character string ["\n"]. *)
Definition nl_char : ascii := ascii_of_nat 10.
Definition nl : string := String nl_char EmptyString.

(** [sep.join(parts)] *)
Definition join (sep : string) (parts : list string) : string :=
  String.concat sep parts.

(** Truth value of a [str] and of an optional [str] or [bytes]. *)
Definition truthy_str (s : string) : bool :=
  match s with EmptyString => false | String _ _ => true end.

Definition truthy (v : option string) : bool :=
  match v with None => false | Some s => truthy_str s end.

(** [a or b] on strings. *)
Definition str_or (a b : string) : string := if truthy_str a then a else b.

(** How an f-string renders a value that may be [None]. *)
Definition fmt (v : option string) : string :=
  match v with None => "None" | Some s => s end.

(** [needle in hay] *)
Definition contains (needle hay : string) : bool :=
  match String.index 0 needle hay with Some _ => true | None => false end.

(** ** Float arithmetic (IEEE 754 binary64, round to nearest even) *)

Definition prec : Z := 53.
Definition emax : Z := 1024.

(** [float(n)] for an integer [n]. *)
Definition float_of_int (n : Z) : spec_float :=
  binary_normalize prec emax n 0 false.

(** [int(x)]: truncation towards zero. *)
Definition int_of_float (x : spec_float) : Z :=
  match x with
  | S754_finite s m e =>
      let a := if (0 <=? e)%Z then Z.shiftl (Zpos m) e
               else Z.shiftr (Zpos m) (- e) in
      if s then (- a)%Z else a
  | _ => 0%Z
  end.

(** [int(a / b * 100)] for integers [a] and [b] (true division; the
    operands are below 2^53, so the quotient of the converted operands is
    the correctly rounded quotient). *)
Definition pct (a b : Z) : Z :=
  int_of_float
    (SFmul prec emax
       (SFdiv prec emax (float_of_int a) (float_of_int b))
       (float_of_int 100)).

(** ** Character classes of the [re] module on [str] patterns *)

Definition code (c : ascii) : nat := nat_of_ascii c.

(** [\d] *)
Definition isdigit (c : ascii) : bool :=
  (48 <=? code c)%nat && (code c <=? 57)%nat.

(** [\s], which is also what [str.strip] removes: the characters for which
    [str.isspace] holds. *)
Definition isspace (c : ascii) : bool :=
  let n := code c in
  ((9 <=? n)%nat && (n <=? 13)%nat)
  || ((28 <=? n)%nat && (n <=? 32)%nat)
  || (n =? 133)%nat || (n =? 160)%nat.

Definition is_nl (c : ascii) : bool := (code c =? 10)%nat.

(** [[\.\)\-]] *)
Definition is_sep (c : ascii) : bool :=
  let n := code c in (n =? 46)%nat || (n =? 41)%nat || (n =? 45)%nat.

(** Longest prefix whose characters satisfy [p], and what follows it. *)
Fixpoint span (p : ascii -> bool) (s : list ascii) : list ascii * list ascii :=
  match s with
  | [] => ([], [])
  | c :: s' =>
      if p c then let (a, b) := span p s' in (c :: a, b) else ([], s)
  end.

Fixpoint dropwhile (p : ascii -> bool) (s : list ascii) : list ascii :=
  match s with
  | [] => []
  | c :: s' => if p c then dropwhile p s' else s
  end.

(** [s.strip()] *)
Definition strip (s : list ascii) : list ascii :=
  rev (dropwhile isspace (rev (dropwhile isspace s))).

(** [s.replace('\n', ' ')] *)
Definition replace_nl (s : list ascii) : list ascii :=
  map (fun c => if is_nl c then " "%char else c) s.

End Py.

(* ===================================================================== *)
(** * Effects: remote calls, display events, exceptions *)
(* ===================================================================== *)

(** A raised exception; [msg] is what [f"{e}"] prints. *)
Record exn := Exn { msg : string }.

(** What a remote service answers to one call. *)
Inductive reply (A : Type) :=
| Ok (a : A)
| Fault (e : exn).
Arguments Ok {A} a.
Arguments Fault {A} e.

(** Events observable outside the program. *)
Inductive event :=
| Progress (pct : Z)            (* st.progress(v), bar.progress(v) *)
| StatusText (s : string)       (* status.text(s) *)
| StatusElapsed (elapsed : Z)   (* status.text of the elapsed seconds *)
| StatusEmpty                   (* status.empty() *)
| Sleep (seconds : Z)           (* time.sleep(s) *)
| StError (s : string)          (* st.error(s) *)
| StWarning (s : string)        (* st.warning(s) *)
| Rerun                         (* st.rerun() *)
| ModelCall (fault : option exn)   (* one call to the model backend *)
| SearchCall (fault : option exn). (* one call to the search provider *)

Inductive outcome (A : Type) :=
| Returned (a : A)
| Raised (e : exn)
| OutOfFuel.
Arguments Returned {A} a.
Arguments Raised {A} e.
Arguments OutOfFuel {A}.

(** Result of running a computation: how it ended, the call counter after
    it, and the events it produced, oldest first. *)
Record run (A : Type) := Run {
  out : outcome A;
  next : nat;
  evs : list event
}.
Arguments Run {A} out next evs.
Arguments out {A} r.
Arguments next {A} r.
Arguments evs {A} r.

Definition M (A : Type) : Type := nat -> run A.

Definition ret {A} (a : A) : M A := fun n => Run (Returned a) n [].

Definition bind {A B} (m : M A) (f : A -> M B) : M B :=
  fun n =>
    match m n with
    | Run (Returned a) n1 l1 =>
        match f a n1 with
        | Run o n2 l2 => Run o n2 (l1 ++ l2)%list
        end
    | Run (Raised e) n1 l1 => Run (Raised e) n1 l1
    | Run OutOfFuel n1 l1 => Run OutOfFuel n1 l1
    end.

Definition raise {A} (e : exn) : M A := fun n => Run (Raised e) n [].

Definition out_of_fuel {A} : M A := fun n => Run OutOfFuel n [].

Definition emit (e : event) : M unit := fun n => Run (Returned tt) n [e].

(** [try: body / except Exception as e: handler(e)] *)
Definition try_except {A} (body : M A) (handler : exn -> M A) : M A :=
  fun n =>
    match body n with
    | Run (Raised e) n1 l1 =>
        match handler e n1 with
        | Run o n2 l2 => Run o n2 (l1 ++ l2)%list
        end
    | r => r
    end.

(** One remote call: the oracle is asked with the current call index. *)
Definition call {A} (log : option exn -> event) (oracle : nat -> reply A)
  : M A :=
  fun n =>
    match oracle n with
    | Ok a => Run (Returned a) (S n) [log None]
    | Fault e => Run (Raised e) (S n) [log (Some e)]
    end.

Declare Scope monad_scope.
Delimit Scope monad_scope with monad.
Notation "x <- m ;; k" := (bind m (fun x => k))
  (at level 61, m at next level, right associativity) : monad_scope.
Notation "m ;; k" := (bind m (fun _ => k))
  (at level 61, right associativity) : monad_scope.
Local Open Scope monad_scope.

(** [xs[0]] on a list: [IndexError] when it is empty. *)
Definition index0 {A} (xs : list A) : M A :=
  match xs with
  | x :: _ => ret x
  | [] => raise (Exn "list index out of range")
  end.

(** Some event of the run is a faulting call to the model backend. *)
Definition model_faulted (l : list event) : Prop :=
  exists e, In (ModelCall (Some e)) l.

(** Some event of the run is a faulting call to the search provider. *)
Definition search_faulted (l : list event) : Prop :=
  exists e, In (SearchCall (Some e)) l.

(** The progress values of a run, in the order they were reported. *)
Fixpoint progress_values (l : list event) : list Z :=
  match l with
  | [] => []
  | Progress p :: l' => p :: progress_values l'
  | _ :: l' => progress_values l'
  end.

(* ===================================================================== *)
(** * The adapters' data *)
(* ===================================================================== *)

(** One element of [interaction.outputs]; [None] when it has no [text]
    attribute or the attribute is [None]. *)
Record output := Output { o_text : option string }.

(** An interaction of the stateful backend. *)
Record interaction := Interaction {
  i_id : string;
  i_status : string;
  i_outputs : option (list output)
}.

(** Arguments of [client.interactions.create]. *)
Record create_request := CreateRequest {
  req_model : option string;
  req_agent : option string;
  req_input : string;
  req_google_search : bool;
  req_previous_interaction_id : option string;
  req_background : bool;
  req_store : bool
}.

(** The [inline_data] of a part: its [data] are the image bytes, or
    [None]. *)
Record blob := Blob { data : option string }.

(** A part of a generated candidate; [inline_data] is [None] when the part
    has no such attribute or the attribute is [None]. *)
Record part := Part { inline_data : option blob }.

(** [response.candidates], each candidate given by its [content.parts]. *)
Record image_response := ImageResponse { candidates : list (list part) }.

(** A chat completion: [choices[i].message.content]. *)
Record chat_response := ChatResponse { choices : list (option string) }.

(** One hit of the search provider. *)
Record search_hit := SearchHit {
  title : string;
  body : string;
  href : string
}.

(** The [raw] entry of an adapter result. *)
Inductive raw_payload :=
| RawInteraction (i : interaction)
| RawChat (r : chat_response)
| RawSections (sections : list string).

(** The dictionary [{"id": .., "text": .., "raw": ..}] the adapters return. *)
Record result := Result {
  r_id : option string;
  r_text : option string;
  r_raw : raw_payload
}.

(** The stateful backend: [client.interactions.create],
    [client.interactions.get] and [client.models.generate_content]. *)
Record gemini_backend := GeminiBackend {
  interactions_create : create_request -> nat -> reply interaction;
  interactions_get : string -> nat -> reply interaction;
  models_generate_content : string -> string -> nat -> reply image_response
}.

(** The stateless backend and the search provider:
    [client.chat.completions.create(model, messages)] with one user message
    and [ddgs.text(query, max_results)]. *)
Record openai_backend := OpenAIBackend {
  chat_completions_create : string -> string -> nat -> reply chat_response;
  ddgs_text : string -> Z -> nat -> reply (list search_hit)
}.

(** [get_text(outputs)] *)
Definition get_text (outputs : option (list output)) : string :=
  let outs := match outputs with Some l => l | None => [] end in
  let texts :=
    flat_map (fun o => match o_text o with
                       | Some t => if Py.truthy_str t then [t] else []
                       | None => []
                       end) outs in
  Py.str_or (Py.join Py.nl texts) "".

(** The abstract base class [LLMClient]. *)
Record LLMClient := {
  create_plan : string -> M (option result);
  execute_research : list string -> option string -> M (option result);
  synthesize_report : string -> option string -> M (option string);
  generate_infographic : option string -> M (option string)
}.

(** The prompt shared by both [create_plan] methods. *)
Definition plan_prompt (goal : string) : string :=
  "Create a numbered research plan for: " ++ goal ++ Py.nl ++ Py.nl
  ++ "Format: 1. [Task] - [Details]" ++ Py.nl ++ Py.nl
  ++ "Include 5-8 specific tasks.".

(* ===================================================================== *)
(** * [GeminiClient] *)
(* ===================================================================== *)

Module GeminiClient.
Section Methods.

Variable client : gemini_backend.

Definition create_plan (goal : string) : M (option result) :=
  try_except
    (interaction <- call ModelCall
       (interactions_create client
          {| req_model := Some "gemini-3-flash-preview";
             req_agent := None;
             req_input := plan_prompt goal;
             req_google_search := true;
             req_previous_interaction_id := None;
             req_background := false;
             req_store := true |}) ;;
     ret (Some {| r_id := Some (i_id interaction);
                  r_text := Some (get_text (i_outputs interaction));
                  r_raw := RawInteraction interaction |}))
    (fun e =>
       emit (StError ("Gemini Plan Error: " ++ msg e)) ;;
       ret None).

(** The [while elapsed < timeout] loop of [_wait_for_completion] and the
    final [get] after it; [fuel] bounds the number of iterations. *)
Fixpoint wait_loop (fuel : nat) (iid : string) (timeout elapsed : Z)
  : M interaction :=
  if (elapsed <? timeout)%Z then
    match fuel with
    | O => out_of_fuel
    | S fuel' =>
        interaction <- call ModelCall (interactions_get client iid) ;;
        if negb (i_status interaction =? "in_progress") then
          emit (Progress 100) ;;
          emit StatusEmpty ;;
          ret interaction
        else
          let elapsed := (elapsed + 3)%Z in
          emit (Progress (Z.min 90 (Py.pct elapsed timeout))) ;;
          emit (StatusElapsed elapsed) ;;
          emit (Sleep 3) ;;
          wait_loop fuel' iid timeout elapsed
    end
  else call ModelCall (interactions_get client iid).

Definition _wait_for_completion (iid : string) (timeout : Z) : M interaction :=
  emit (Progress 0) ;;
  wait_loop (Z.to_nat timeout) iid timeout 0.

Definition execute_research (tasks : list string)
    (previous_context : option string) : M (option result) :=
  let plan_id := if Py.truthy previous_context then previous_context else None in
  let task_text := Py.join (Py.nl ++ Py.nl) tasks in
  try_except
    (interaction <- call ModelCall
       (interactions_create client
          {| req_model := None;
             req_agent := Some "deep-research-pro-preview-12-2025";
             req_input := "Research these tasks thoroughly with sources:"
                          ++ Py.nl ++ Py.nl ++ task_text;
             req_google_search := false;
             req_previous_interaction_id := plan_id;
             req_background := true;
             req_store := true |}) ;;
     interaction <- _wait_for_completion (i_id interaction) 300 ;;
     ret (Some {| r_id := Some (i_id interaction);
                  r_text := Some (Py.str_or (get_text (i_outputs interaction))
                                    ("Status: " ++ i_status interaction));
                  r_raw := RawInteraction interaction |}))
    (fun e =>
       emit (StError ("Gemini Research Error: " ++ msg e)) ;;
       ret None).

Definition synthesize_report (research_data : string)
    (previous_context : option string) : M (option string) :=
  let research_id := previous_context in
  try_except
    (interaction <- call ModelCall
       (interactions_create client
          {| req_model := Some "gemini-3-pro-preview";
             req_agent := None;
             req_input := "Create executive report with Summary, Findings, Recommendations, Risks:"
                          ++ Py.nl ++ Py.nl ++ research_data;
             req_google_search := false;
             req_previous_interaction_id := research_id;
             req_background := false;
             req_store := true |}) ;;
     ret (Some (get_text (i_outputs interaction))))
    (fun e =>
       emit (StError ("Gemini Synthesis Error: " ++ msg e)) ;;
       ret (Some "")).

(** The [for part in ...parts] loop: the [data] of the first part that has
    inline data, whatever they are; [None] when the loop ends without
    returning. *)
Fixpoint first_inline_data (parts : list part) : option string :=
  match parts with
  | [] => None
  | p :: parts' =>
      match inline_data p with
      | Some b => data b
      | None => first_inline_data parts'
      end
  end.

Definition generate_infographic (text : option string) : M (option string) :=
  try_except
    (response <- call ModelCall
       (models_generate_content client "gemini-3-pro-image-preview"
          ("Create a whiteboard summary infographic for the following: "
           ++ Py.fmt text)) ;;
     parts <- index0 (candidates response) ;;
     ret (first_inline_data parts))
    (fun e =>
       emit (StWarning ("Infographic Error: " ++ msg e)) ;;
       ret None).

End Methods.
End GeminiClient.

(* ===================================================================== *)
(** * [OpenAICompatibleClient] *)
(* ===================================================================== *)

Module OpenAICompatibleClient.
Section Methods.

Variable client : openai_backend.
Variable model : string.

Definition create_plan (goal : string) : M (option result) :=
  let prompt := plan_prompt goal in
  try_except
    (response <- call ModelCall (chat_completions_create client model prompt) ;;
     text <- index0 (choices response) ;;
     ret (Some {| r_id := None; r_text := text; r_raw := RawChat response |}))
    (fun e =>
       emit (StError ("Plan Error: " ++ msg e)) ;;
       ret None).

(** [f"- {r['title']}: {r['body']} ({r['href']})"] *)
Definition hit_line (r : search_hit) : string :=
  "- " ++ title r ++ ": " ++ body r ++ " (" ++ href r ++ ")".

Definition analysis_prompt (task search_context : string) : string :=
  "Analyze these search results for the task: '" ++ task
  ++ "'. Extract key facts and details." ++ Py.nl ++ Py.nl
  ++ "Results:" ++ Py.nl ++ search_context.

Definition section_ok (task : string) (summary : option string)
    (search_context : string) : string :=
  "### Research for: " ++ task ++ Py.nl ++ Py.fmt summary ++ Py.nl ++ Py.nl
  ++ "Sources:" ++ Py.nl ++ search_context.

Definition section_error (task : string) (e : exn) : string :=
  "### Research for: " ++ task ++ Py.nl ++ "Error: " ++ msg e.

(** The body of the [for idx, task in enumerate(tasks)] loop, for the tasks
    from index [idx] on; [research_results] is the list built so far. *)
Fixpoint research_loop (total_tasks idx : Z) (tasks : list string)
    (research_results : list string) : M (list string) :=
  match tasks with
  | [] => ret research_results
  | task :: rest =>
      emit (StatusText ("Searching: " ++ substring 0 50 task ++ "...")) ;;
      results <- call SearchCall (ddgs_text client task 3) ;;
      let search_context := Py.join Py.nl (map hit_line results) in
      let prompt := analysis_prompt task search_context in
      section <- try_except
        (response <- call ModelCall
           (chat_completions_create client model prompt) ;;
         summary <- index0 (choices response) ;;
         ret (section_ok task summary search_context))
        (fun e => ret (section_error task e)) ;;
      let research_results := (research_results ++ [section])%list in
      emit (Progress (Py.pct (idx + 1) total_tasks)) ;;
      research_loop total_tasks (idx + 1) rest research_results
  end.

Definition execute_research (tasks : list string)
    (previous_context : option string) : M (option result) :=
  emit (Progress 0) ;;
  let total_tasks := Z.of_nat (List.length tasks) in
  research_results <- research_loop total_tasks 0 tasks [] ;;
  emit StatusEmpty ;;
  ret (Some {| r_id := None;
               r_text := Some (Py.join (Py.nl ++ Py.nl) research_results);
               r_raw := RawSections research_results |}).

Definition synthesize_report (research_data : string)
    (previous_context : option string) : M (option string) :=
  let prompt :=
    "Create executive report with Sumeexmary, Findings, Recommendations, Risks based on this research:"
    ++ Py.nl ++ Py.nl ++ research_data in
  try_except
    (response <- call ModelCall (chat_completions_create client model prompt) ;;
     index0 (choices response))
    (fun e =>
       emit (StError ("Synthesis Error: " ++ msg e)) ;;
       ret (Some "")).

Definition generate_infographic (text : option string) : M (option string) :=
  ret None.

End Methods.
End OpenAICompatibleClient.

(** The two implementations of the interface. *)
Definition gemini_client (b : gemini_backend) : LLMClient :=
  {| create_plan := GeminiClient.create_plan b;
     execute_research := GeminiClient.execute_research b;
     synthesize_report := GeminiClient.synthesize_report b;
     generate_infographic := GeminiClient.generate_infographic b |}.

Definition openai_client (b : openai_backend) (model : string) : LLMClient :=
  {| create_plan := OpenAICompatibleClient.create_plan b model;
     execute_research := OpenAICompatibleClient.execute_research b model;
     synthesize_report := OpenAICompatibleClient.synthesize_report b model;
     generate_infographic := OpenAICompatibleClient.generate_infographic |}.

(* ===================================================================== *)
(** * The task parser *)
(* ===================================================================== *)

(** One parsed task: the dictionary [{"num": .., "text": ..}]. *)
Record task := Task { num : string; text : string }.

(** The pattern of [parse_tasks], with [re.MULTILINE | re.DOTALL]:

    [^(\d+)[\.\)\-]\s*(.+?)(?=\n\d+[\.\)\-]|\n\n|\Z)]

    The matcher below follows the backtracking search of [re] on this
    pattern. [\d+] is greedy and what follows it is not a digit, so only
    the longest run of digits can be followed by the separator. [\s*] is
    greedy; [.+?] takes one character and then as few as possible, testing
    the lookahead after each. When the longest run of whitespace is followed
    by a character, the lazy group starts there and succeeds at the latest at
    the end of the text; when it reaches the end of the text, [\s*] gives
    back its last character to the group. *)
Module Pattern.

(** [\d+[\.\)\-]] matches at the start of [s]. *)
Definition at_ordinal (s : list ascii) : bool :=
  match Py.span Py.isdigit s with
  | (_ :: _, c :: _) => Py.is_sep c
  | _ => false
  end.

(** The lookahead [(?=\n\d+[\.\)\-]|\n\n|\Z)] holds at the start of [s]. *)
Definition lookahead (s : list ascii) : bool :=
  match s with
  | [] => true
  | c :: s' =>
      Py.is_nl c &&
      match s' with
      | [] => false
      | c' :: _ => Py.is_nl c' || at_ordinal s'
      end
  end.

(** What [.+?] takes after its first character: the shortest prefix of [s]
    after which the lookahead holds, and the rest. *)
Fixpoint lazy_more (s : list ascii) : list ascii * list ascii :=
  match s with
  | [] => ([], [])
  | c :: s' =>
      if lookahead s then ([], s)
      else let (b, r) := lazy_more s' in (c :: b, r)
  end.

(** A match of the pattern after [^], at the start of [s]: group 1, group 2
    and the text after the match. *)
Definition match_here (s : list ascii)
  : option (list ascii * list ascii * list ascii) :=
  match Py.span Py.isdigit s with
  | (d :: ds, c :: s1) =>
      if Py.is_sep c then
        let (ws, s2) := Py.span Py.isspace s1 in
        match s2 with
        | x :: s3 =>
            let (more, r) := lazy_more s3 in Some (d :: ds, x :: more, r)
        | [] =>
            match rev ws with
            | x :: _ => Some (d :: ds, [x], [])
            | [] => None
            end
        end
      else None
  | _ => None
  end.

(** [re.finditer]: the matches from left to right, without overlap. [bol]
    tells whether [^] holds at the start of [s] (start of the text, or just
    after a newline); [skip] counts the characters of [s] that the previous
    match still covers. *)
Fixpoint finditer (skip : nat) (bol : bool) (s : list ascii)
  : list (list ascii * list ascii) :=
  match s with
  | [] => []
  | c :: s' =>
      match skip with
      | S k => finditer k (Py.is_nl c) s'
      | O =>
          match (if bol then match_here s else None) with
          | Some (g1, g2, r) =>
              (g1, g2)
              :: finditer (List.length s - List.length r - 1) (Py.is_nl c) s'
          | None => finditer 0 (Py.is_nl c) s'
          end
      end
  end.

End Pattern.

(** [m.group(2).strip().replace('\n', ' ')] *)
Definition clean (group2 : list ascii) : string :=
  string_of_list_ascii (Py.replace_nl (Py.strip group2)).

Definition task_of_match (m : list ascii * list ascii) : task :=
  {| num := string_of_list_ascii (fst m); text := clean (snd m) |}.

Definition parse_tasks (plan : string) : list task :=
  map task_of_match (Pattern.finditer 0 true (list_ascii_of_string plan)).

(* ===================================================================== *)
(** * The pipeline driver *)
(* ===================================================================== *)

(** [st.session_state] with its seven keys. *)
Record session_state := SessionState {
  plan_id : option string;
  plan_text : option string;
  tasks : list task;
  research_id : option string;
  research_text : option string;
  synthesis_text : option string;
  infographic : option string
}.

(** The state written by the initialisation loop and by "Reset State". *)
Definition initial_state : session_state :=
  {| plan_id := None; plan_text := None; tasks := [];
     research_id := None; research_text := None;
     synthesis_text := None; infographic := None |}.

(** The options of the provider select box. *)
Inductive provider := GoogleGemini | OpenRouter | Ollama | VLLM.

Definition is_gemini (p : provider) : bool :=
  match p with GoogleGemini => true | _ => false end.


Module Driver.
Section Handlers.

Variable selected_provider : provider.
Variable client : LLMClient.

(** The "Reset State" button. *)
Definition on_reset (ss : session_state) : M session_state :=
  emit Rerun ;; ret initial_state.

(** The "Generate Plan" button; it is enabled for a non-empty goal. *)
Definition on_generate_plan (research_goal : string) (ss : session_state)
  : M session_state :=
  let failed := emit (StError "Failed to generate plan.") ;; ret ss in
  result <- create_plan client research_goal ;;
  match result with
  | Some r =>
      match r_text r with
      | Some plan =>
          if Py.truthy_str plan then
            ret {| plan_id := r_id r;
                   plan_text := Some plan;
                   tasks := parse_tasks plan;
                   research_id := research_id ss;
                   research_text := research_text ss;
                   synthesis_text := synthesis_text ss;
                   infographic := infographic ss |}
          else failed
      | None => failed
      end
  | None => failed
  end.

(** [st.checkbox(label, True, key=key)] refuses a key that another element
    of the same run of the script already has, with this exception (the
    wording of the message is Streamlit's and is not reproduced). *)
Definition duplicate_key (key : string) : exn :=
  Exn ("duplicate element key: " ++ key).

(** The [for t in st.session_state.tasks] loop of the task selection:
    [checked] gives the value of the check box of each key, [seen] the keys
    of the check boxes made so far, [selected] the entries appended so
    far. *)
Fixpoint select_loop (checked : string -> bool) (seen : list string)
    (ts : list task) (selected : list string) : M (list string) :=
  match ts with
  | [] => ret selected
  | t :: rest =>
      let key := "t" ++ num t in
      if existsb (String.eqb key) seen then raise (duplicate_key key)
      else
        let selected :=
          if checked key
          then (selected ++ [(num t ++ ". " ++ text t)%string])%list
          else selected in
        select_loop checked (key :: seen) rest selected
  end.

(** The task selection, shown when there is a plan text: one check box per
    task, keyed by the ordinal of the task; without tasks, a warning. *)
Definition selected (checked : string -> bool) (ss : session_state)
  : M (list string) :=
  match tasks ss with
  | [] => emit (StWarning "No tasks parsed. Check the plan format.") ;; ret []
  | _ :: _ => select_loop checked [] (tasks ss) []
  end.

(** The "Start Research" button; it is enabled for a non-empty selection. *)
Definition on_start_research (sel : list string) (ss : session_state)
  : M session_state :=
  result <- execute_research client sel (plan_id ss) ;;
  match result with
  | Some r =>
      if Py.truthy (r_text r) then
        emit Rerun ;;
        ret {| plan_id := plan_id ss;
               plan_text := plan_text ss;
               tasks := tasks ss;
               research_id := r_id r;
               research_text := r_text r;
               synthesis_text := synthesis_text ss;
               infographic := infographic ss |}
      else emit (StError "Research failed.") ;; ret ss
  | None => emit (StError "Research failed.") ;; ret ss
  end.

(** The "Generate Executive Report" button, shown when there is research
    text: synthesis, then the infographic attempt. *)
Definition on_generate_report (ss : session_state) : M session_state :=
  match research_text ss with
  | None => ret ss
  | Some research =>
      if Py.truthy_str research then
        synthesis <- synthesize_report client research (research_id ss) ;;
        ss1 <- (if Py.truthy synthesis then
                  ret {| plan_id := plan_id ss;
                         plan_text := plan_text ss;
                         tasks := tasks ss;
                         research_id := research_id ss;
                         research_text := research_text ss;
                         synthesis_text := synthesis;
                         infographic := infographic ss |}
                else emit (StError "Synthesis failed") ;; ret ss) ;;
        image <- generate_infographic client (synthesis_text ss1) ;;
        ss2 <- (if Py.truthy image then
                  ret {| plan_id := plan_id ss1;
                         plan_text := plan_text ss1;
                         tasks := tasks ss1;
                         research_id := research_id ss1;
                         research_text := research_text ss1;
                         synthesis_text := synthesis_text ss1;
                         infographic := image |}
                else
                  (if is_gemini selected_provider then
                     emit (StWarning "Infographic generation failed or not supported.")
                   else ret tt) ;;
                  ret ss1) ;;
        emit Rerun ;;
        ret ss2
      else ret ss
  end.

End Handlers.
End Driver.

(* ===================================================================== *)
(** * Display messages *)
(* ===================================================================== *)

(** The messages shown to the user: [st.error] and [st.warning]. *)
Definition is_message (e : event) : bool :=
  match e with
  | StError _ | StWarning _ => true
  | _ => false
  end.

Definition messages (l : list event) : list event := filter is_message l.

Definition infographic_warning : string :=
  "Infographic generation failed or not supported.".

Definition is_infographic_warning (e : event) : bool :=
  match e with
  | StWarning s => String.eqb s infographic_warning
  | _ => false
  end.

(** The messages other than the driver's infographic warning. *)
Definition without_infographic_warning (l : list event) : list event :=
  filter (fun e => negb (is_infographic_warning e)) l.

(** Two adapter calls give the caller the same value and show the same
    messages. *)
Definition same_reply {A} (r1 r2 : run A) : Prop :=
  out r1 = out r2 /\ messages (evs r1) = messages (evs r2).

(* ===================================================================== *)
(** * The extraction rule of the task parser, as a relation *)
(* ===================================================================== *)

Module Rule.

Local Open Scope list_scope.

Definition digit (c : ascii) : Prop := Py.isdigit c = true.
Definition space (c : ascii) : Prop := Py.isspace c = true.
Definition separator (c : ascii) : Prop := Py.is_sep c = true.
Definition newline (c : ascii) : Prop := Py.is_nl c = true.

(** [s] starts with a numeric ordinal followed by a separator. *)
Definition ordinal_start (s : list ascii) : Prop :=
  exists ds c rest,
    s = ds ++ c :: rest /\ ds <> [] /\ Forall digit ds /\ separator c.

(** [s] starts with an ordinal, a separator and at least one more
    character: a task begins here when [s] is at the start of a line. *)
Definition task_start (s : list ascii) : Prop :=
  exists ds c x rest,
    s = ds ++ c :: x :: rest /\ ds <> [] /\ Forall digit ds /\ separator c.

(** What ends a task body: the end of the text, a blank line, or a line
    that starts with an ordinal and a separator. *)
Definition body_end (r : list ascii) : Prop :=
  r = []
  \/ (exists c1 c2 r', r = c1 :: c2 :: r' /\ newline c1 /\ newline c2)
  \/ (exists c1 r', r = c1 :: r' /\ newline c1 /\ ordinal_start r').

(** [body] is the body of a task, after the whitespace [ws] that follows
    the separator and before [r]: it is not empty, it stops at the first
    place after its first character where a body can end, and it starts
    at the first character that is not whitespace; when only whitespace
    is left up to the end of the text, it is the last character of it. *)
Definition task_body (ws body r : list ascii) : Prop :=
  body <> []
  /\ body_end r
  /\ (forall b1 b2, body = b1 ++ b2 -> b1 <> [] -> b2 <> [] ->
        ~ body_end (b2 ++ r))
  /\ Forall space ws
  /\ ((exists x b, body = x :: b /\ ~ space x)
       \/ (exists x, body = [x] /\ space x /\ r = [])).

(** The last character of a match is a newline. *)
Definition ends_with_newline (s : list ascii) : bool :=
  match rev s with
  | c :: _ => Py.is_nl c
  | [] => false
  end.

(** [matches bol s ms]: [ms] lists the ordinal and the body of the tasks
    found in [s], from left to right; [bol] tells whether [s] begins at the
    start of a line. *)
Inductive matches : bool -> list ascii -> list (list ascii * list ascii) -> Prop :=
| matches_end (bol : bool) :
    matches bol [] []
| matches_skip (bol : bool) (c : ascii) (s : list ascii) ms :
    bol = false \/ ~ task_start (c :: s) ->
    matches (Py.is_nl c) s ms ->
    matches bol (c :: s) ms
| matches_task (ds : list ascii) (c : ascii) (ws body r : list ascii) ms :
    ds <> [] -> Forall digit ds -> separator c ->
    task_body ws body r ->
    matches (ends_with_newline body) r ms ->
    matches true (ds ++ c :: ws ++ body ++ r) ((ds, body) :: ms).






End Rule.

(* ===================================================================== *)
(** * Sections of the research text, and where a search resumes *)
(* ===================================================================== *)

(** [section] is the section of the stateless research text for [task]:
    the summary with its sources, or the inline error. *)
Definition section_for (task section : string) : Prop :=
  (exists summary context,
     section = OpenAICompatibleClient.section_ok task summary context)
  \/ (exists e, section = OpenAICompatibleClient.section_error task e).

(** The section the research loop appends for [task], from the hits of its
    search and the reply of the model to the analysis prompt: the summary
    of the first choice with the sources, or the inline error when the
    model call failed or the completion has no choice. *)
Definition section_of_reply (task : string) (hits : list search_hit)
    (r : reply chat_response) : string :=
  let search_context :=
    Py.join Py.nl (map OpenAICompatibleClient.hit_line hits) in
  match r with
  | Fault e => OpenAICompatibleClient.section_error task e
  | Ok resp =>
      match choices resp with
      | summary :: _ =>
          OpenAICompatibleClient.section_ok task summary search_context
      | [] =>
          OpenAICompatibleClient.section_error task
            (Exn "list index out of range")
      end
  end.

(** The reply of the model to the analysis prompt of [task], at call [k]. *)
Definition analysis_reply (b : openai_backend) (model task : string)
    (hits : list search_hit) (k : nat) : reply chat_response :=
  chat_completions_create b model
    (OpenAICompatibleClient.analysis_prompt task
       (Py.join Py.nl (map OpenAICompatibleClient.hit_line hits))) k.

(** Whether [^] holds after the characters [pre], when it held or not
    ([bol]) before them. *)
Definition bol_after (bol : bool) (pre : list ascii) : bool :=
  match rev pre with
  | c :: _ => Py.is_nl c
  | [] => bol
  end.

(* ===================================================================== *)
(** * Progress of the polling loop *)
(* ===================================================================== *)

(** The values the polling loop reports after [k] polls that found the job
    in progress, starting from [elapsed]. *)
Fixpoint poll_progress (timeout elapsed : Z) (k : nat) : list Z :=
  match k with
  | O => []
  | S k' =>
      Z.min 90 (Py.pct (elapsed + 3) timeout)
      :: poll_progress timeout (elapsed + 3) k'
  end.

(** Boolean test that a list of integers is non-decreasing. *)
Fixpoint nondecreasingb (l : list Z) : bool :=
  match l with
  | [] => true
  | a :: l' =>
      match l' with
      | [] => true
      | b :: _ => (a <=? b)%Z && nondecreasingb l'
      end
  end.

(* ===================================================================== *)
(** * The sidebar and the runs of the script *)
(* ===================================================================== *)





Module Pipeline.










End Pipeline.



(* ===================================================================== *)
(** * Sample inputs *)
(* ===================================================================== *)

Module Samples.

(** ["1. Alpha task\n2) Beta task\n3- Gamma"] *)
Definition plan_abc : string :=
  "1. Alpha task" ++ Py.nl ++ "2) Beta task" ++ Py.nl ++ "3- Gamma".

(** A stateful backend that answers at once: a plan, finished interactions,
    and an image response without inline data. *)
Definition gemini_ok : gemini_backend :=
  {| interactions_create := fun _ _ =>
       Ok {| i_id := "int-1"; i_status := "completed";
             i_outputs := Some [Output (Some "1. New task")] |};
     interactions_get := fun iid _ =>
       Ok {| i_id := iid; i_status := "completed";
             i_outputs := Some [Output (Some "Findings")] |};
     models_generate_content := fun _ _ _ =>
       Ok {| candidates := [[Part None]] |} |}.

(** A stateful backend every call of which fails. *)
Definition gemini_down : gemini_backend :=
  {| interactions_create := fun _ _ => Fault (Exn "503 unavailable");
     interactions_get := fun _ _ => Fault (Exn "503 unavailable");
     models_generate_content := fun _ _ _ => Fault (Exn "503 unavailable") |}.

(** A stateful backend whose research job never leaves "in_progress" and
    carries no output. *)
Definition gemini_stuck : gemini_backend :=
  {| interactions_create := fun _ _ =>
       Ok {| i_id := "job-1"; i_status := "in_progress"; i_outputs := None |};
     interactions_get := fun iid _ =>
       Ok {| i_id := iid; i_status := "in_progress"; i_outputs := None |};
     models_generate_content := fun _ _ _ =>
       Ok {| candidates := [] |} |}.

(** A stateful backend whose research job is in progress at each of the
    hundred polls of the budget (calls 1 to 100) and completed, with its
    report, from then on. *)
Definition gemini_late : gemini_backend :=
  {| interactions_create := fun _ _ =>
       Ok {| i_id := "job-1"; i_status := "in_progress"; i_outputs := None |};
     interactions_get := fun iid n =>
       if (n <=? 100)%nat then
         Ok {| i_id := iid; i_status := "in_progress"; i_outputs := None |}
       else
         Ok {| i_id := iid; i_status := "completed";
               i_outputs := Some [Output (Some "Final findings")] |};
     models_generate_content := fun _ _ _ =>
       Ok {| candidates := [] |} |}.

(** A stateful backend that answers every request with the text "Report"
    and generates images without inline data. *)
Definition gemini_report : gemini_backend :=
  {| interactions_create := fun _ _ =>
       Ok {| i_id := "int-2"; i_status := "completed";
             i_outputs := Some [Output (Some "Report")] |};
     interactions_get := fun iid _ =>
       Ok {| i_id := iid; i_status := "completed";
             i_outputs := Some [Output (Some "Report")] |};
     models_generate_content := fun _ _ _ =>
       Ok {| candidates := [[Part None]] |} |}.

Definition hit : search_hit :=
  {| title := "Title"; body := "Snippet"; href := "https://example.org" |}.

(** A stateless backend that answers every prompt with "Report", with a
    working search provider. *)
Definition openai_ok : openai_backend :=
  {| chat_completions_create := fun _ _ _ =>
       Ok {| choices := [Some "Report"] |};
     ddgs_text := fun _ _ _ => Ok [hit] |}.

(** A stateless backend whose model fails on every call; the search
    provider works. *)
Definition openai_down : openai_backend :=
  {| chat_completions_create := fun _ _ _ => Fault (Exn "connection refused");
     ddgs_text := fun _ _ _ => Ok [hit] |}.

(** A working stateless backend whose search provider fails on the query
    "2. b". *)
Definition search_flaky : openai_backend :=
  {| chat_completions_create := fun _ _ _ =>
       Ok {| choices := [Some "Summary"] |};
     ddgs_text := fun query _ _ =>
       if String.eqb query "2. b" then Fault (Exn "rate limited")
       else Ok [hit] |}.

(** A stateless backend whose plan numbers two tasks with the same
    ordinal. *)
Definition plan_dup : string := "1. Survey the market" ++ Py.nl ++ "1. List the vendors".

Definition openai_dup : openai_backend :=
  {| chat_completions_create := fun _ _ _ =>
       Ok {| choices := [Some plan_dup] |};
     ddgs_text := fun _ _ _ => Ok [hit] |}.




Definition three_tasks : list string := ["1. a"; "2. b"; "3. c"].

(** The session state after "Generate Plan" answered by [openai_dup]. *)
Definition ss_dup : session_state :=
  {| plan_id := None;
     plan_text := Some plan_dup;
     tasks := [ {| num := "1"; text := "Survey the market" |};
                {| num := "1"; text := "List the vendors" |} ];
     research_id := None; research_text := None;
     synthesis_text := None; infographic := None |}.

(** The session state after a full run of the pipeline. *)
Definition ss_full : session_state :=
  {| plan_id := Some "int-0";
     plan_text := Some "1. Old task";
     tasks := [ {| num := "1"; text := "Old task" |} ];
     research_id := Some "res-0";
     research_text := Some "Old findings";
     synthesis_text := Some "Old report";
     infographic := Some "old image bytes" |}.

End Samples.

(* ===================================================================== *)
(** * Properties *)
(* ===================================================================== *)

Example parse_tasks_plan_abc :
  parse_tasks Samples.plan_abc
  = [ {| num := "1"; text := "Alpha task" |};
      {| num := "2"; text := "Beta task" |};
      {| num := "3"; text := "Gamma" |} ].
Proof. reflexivity. Qed.

#[local] Arguments Py.pct : simpl never.
#[local] Arguments String.append : simpl never.
#[local] Arguments substring : simpl never.

(** ** The monad *)

Lemma messages_app l1 l2 :
  messages (l1 ++ l2) = (messages l1 ++ messages l2)%list.
Proof. apply filter_app. Qed.

(** ** C1: re-planning and the downstream artifacts *)

(** C1, as stated, fails: after a full pipeline run a successful
    "Generate Plan" stores the new plan and still holds the research text,
    the report and the infographic of the previous plan. *)
Lemma replan_keeps_stale_artifacts :
  out (Driver.on_generate_plan (gemini_client Samples.gemini_ok)
         "New goal" Samples.ss_full 0)
  = Returned
      {| plan_id := Some "int-1";
         plan_text := Some "1. New task";
         tasks := [ {| num := "1"; text := "New task" |} ];
         research_id := Some "res-0";
         research_text := Some "Old findings";
         synthesis_text := Some "Old report";
         infographic := Some "old image bytes" |}.
Proof. reflexivity. Qed.

(** C1 (amended): "Generate Plan", whether [create_plan] succeeds or not,
    leaves the stored research id, research text, synthesis text and
    infographic as they were; only "Reset State" clears them. *)
Theorem generate_plan_leaves_downstream
    (client : LLMClient) (goal : string) (ss ss' : session_state) (n : nat) :
  out (Driver.on_generate_plan client goal ss n) = Returned ss' ->
  (research_id ss' = research_id ss
   /\ research_text ss' = research_text ss
   /\ synthesis_text ss' = synthesis_text ss
   /\ infographic ss' = infographic ss)
  /\ out (Driver.on_reset ss' n) = Returned initial_state.
Proof.
  intros H. split; [|reflexivity].
  unfold Driver.on_generate_plan, bind in H.
  destruct (create_plan client goal n) as [[[r|]|e|] n1 l1]; cbn in H;
    try discriminate.
  - destruct (r_text r) as [plan|]; [destruct (Py.truthy_str plan)|];
      cbn in H; inversion H; subst; cbn; auto.
  - inversion H; subst; auto.
Qed.

Lemma generate_plan_leaves_downstream_witness :
  research_text
    {| plan_id := Some "int-1";
       plan_text := Some "1. New task";
       tasks := [ {| num := "1"; text := "New task" |} ];
       research_id := Some "res-0";
       research_text := Some "Old findings";
       synthesis_text := Some "Old report";
       infographic := Some "old image bytes" |}
  = research_text Samples.ss_full.
Proof.
  refine (proj1 (proj2 (proj1
    (generate_plan_leaves_downstream (gemini_client Samples.gemini_ok)
       "New goal" Samples.ss_full _ 0 _)))).
  reflexivity.
Defined.

(** ** The polling loop of the stateful adapter *)

Ltac run_step :=
  unfold bind, try_except, call, emit, ret, raise, out_of_fuel, index0; cbn.

Lemma no_fault_nil : ~ model_faulted [].
Proof. intros [e []]. Qed.

Lemma model_faulted_app l1 l2 :
  model_faulted (l1 ++ l2) <-> model_faulted l1 \/ model_faulted l2.
Proof.
  unfold model_faulted. split.
  - intros [e H]. apply in_app_or in H. destruct H; [left|right]; eauto.
  - intros [[e H]|[e H]]; exists e; apply in_or_app; auto.
Qed.

Lemma model_faulted_cons ev l :
  model_faulted (ev :: l)
  <-> (exists e, ev = ModelCall (Some e)) \/ model_faulted l.
Proof.
  unfold model_faulted. split.
  - intros [e [H|H]]; [left|right]; eauto.
  - intros [[e H]|[e H]]; exists e; [left|right]; auto.
Qed.

(** The fuel given by [_wait_for_completion] is never used up. *)
Lemma wait_loop_fuel (b : gemini_backend) (iid : string) (timeout : Z) :
  forall (fuel : nat) (elapsed : Z) (n : nat),
    (timeout - elapsed <= Z.of_nat fuel)%Z ->
    out (GeminiClient.wait_loop b fuel iid timeout elapsed n) <> OutOfFuel.
Proof.
  induction fuel as [|fuel IH]; intros elapsed n Hf; cbn [GeminiClient.wait_loop].
  - destruct (elapsed <? timeout)%Z eqn:E.
    + apply Z.ltb_lt in E. lia.
    + run_step. destruct (interactions_get b iid n); cbn; discriminate.
  - destruct (elapsed <? timeout)%Z eqn:E.
    + run_step. destruct (interactions_get b iid n) as [i|e]; cbn; [|discriminate].
      destruct (i_status i =? "in_progress"); cbn; [|discriminate].
      specialize (IH (elapsed + 3)%Z (S n)).
      destruct (GeminiClient.wait_loop b fuel iid timeout (elapsed + 3) (S n))
        as [[j|e|] n1 l1]; cbn in *; try discriminate.
      apply IH. lia.
    + run_step. destruct (interactions_get b iid n); cbn; discriminate.
Qed.

(** A poll loop that returns has seen no failing call. *)
Lemma wait_loop_returned_clean (b : gemini_backend) (iid : string) (timeout : Z) :
  forall (fuel : nat) (elapsed : Z) (n : nat) (i : interaction),
    out (GeminiClient.wait_loop b fuel iid timeout elapsed n) = Returned i ->
    ~ model_faulted (evs (GeminiClient.wait_loop b fuel iid timeout elapsed n)).
Proof.
  assert (Hlast : forall n i,
    out (call ModelCall (interactions_get b iid) n) = Returned i ->
    ~ model_faulted (evs (call ModelCall (interactions_get b iid) n))).
  { intros n i. unfold call. destruct (interactions_get b iid n); cbn.
    - intros _ [e [H|[]]]. discriminate.
    - discriminate. }
  induction fuel as [|fuel IH]; intros elapsed n i; cbn [GeminiClient.wait_loop].
  - destruct (elapsed <? timeout)%Z; [discriminate|apply Hlast].
  - destruct (elapsed <? timeout)%Z; [|apply Hlast].
    run_step. destruct (interactions_get b iid n) as [j|e]; cbn; [|discriminate].
    destruct (i_status j =? "in_progress"); cbn.
    + specialize (IH (elapsed + 3)%Z (S n)).
      destruct (GeminiClient.wait_loop b fuel iid timeout (elapsed + 3) (S n))
        as [[a|e|] n1 l1]; cbn in *; try discriminate.
      intros _ [e H]. cbn in H.
      repeat (destruct H as [H|H]; [discriminate|]).
      apply (IH a eq_refl). exists e. exact H.
    + intros _ [e H]. cbn in H.
      repeat (destruct H as [H|H]; [discriminate|]). exact H.
Qed.

Lemma wait_for_completion_fuel (b : gemini_backend) iid timeout n :
  out (GeminiClient._wait_for_completion b iid timeout n) <> OutOfFuel.
Proof.
  unfold GeminiClient._wait_for_completion. run_step.
  pose proof (wait_loop_fuel b iid timeout (Z.to_nat timeout) 0 n) as H.
  destruct (GeminiClient.wait_loop b (Z.to_nat timeout) iid timeout 0 n)
    as [[j|e|] n1 l1]; cbn in *; try discriminate.
  apply H. lia.
Qed.

Lemma wait_for_completion_returned_clean (b : gemini_backend) iid timeout n i :
  out (GeminiClient._wait_for_completion b iid timeout n) = Returned i ->
  ~ model_faulted (evs (GeminiClient._wait_for_completion b iid timeout n)).
Proof.
  unfold GeminiClient._wait_for_completion. run_step.
  pose proof (wait_loop_returned_clean b iid timeout (Z.to_nat timeout) 0 n) as H.
  destruct (GeminiClient.wait_loop b (Z.to_nat timeout) iid timeout 0 n)
    as [[a|e|] n1 l1]; cbn in *; try discriminate.
  intros _ [e [F|F]]; [discriminate|].
  apply (H a eq_refl). exists e. exact F.
Qed.

(** ** Faults at the adapter boundary *)

Ltac no_fault :=
  let e := fresh "e" in
  let H := fresh "H" in
  intros [e H]; cbn in H;
  repeat (destruct H as [H|H]; [discriminate|]); contradiction.

Lemma gemini_create_plan_absorbs (b : gemini_backend) goal n :
  exists r,
    out (GeminiClient.create_plan b goal n) = Returned r
    /\ (model_faulted (evs (GeminiClient.create_plan b goal n)) -> r = None).
Proof.
  unfold GeminiClient.create_plan. run_step.
  destruct (interactions_create b _ n); cbn; eexists; split;
    try reflexivity; auto.
  intros F; exfalso; revert F; no_fault.
Qed.

#[local] Arguments GeminiClient._wait_for_completion : simpl never.

Lemma gemini_execute_research_absorbs (b : gemini_backend) tasks ctx n :
  exists r,
    out (GeminiClient.execute_research b tasks ctx n) = Returned r
    /\ (model_faulted (evs (GeminiClient.execute_research b tasks ctx n))
        -> r = None).
Proof.
  unfold GeminiClient.execute_research, try_except, bind, call.
  destruct (interactions_create b _ n) as [i|e]; cbn.
  2:{ eexists; split; [reflexivity|auto]. }
  pose proof (wait_for_completion_fuel b (i_id i) 300 (S n)) as Hfuel.
  pose proof (wait_for_completion_returned_clean b (i_id i) 300 (S n)) as Hclean.
  destruct (GeminiClient._wait_for_completion b (i_id i) 300 (S n))
    as [[j|e|] n1 l1]; cbn in *.
  - eexists; split; [reflexivity|]. intros F. exfalso.
    rewrite app_nil_r in F.
    apply model_faulted_cons in F. destruct F as [[e F]|F]; [discriminate|].
    exact (Hclean j eq_refl F).
  - eexists; split; [reflexivity|auto].
  - congruence.
Qed.

Lemma gemini_synthesize_report_absorbs (b : gemini_backend) data ctx n :
  exists r,
    out (GeminiClient.synthesize_report b data ctx n) = Returned r
    /\ (model_faulted (evs (GeminiClient.synthesize_report b data ctx n))
        -> r = Some "").
Proof.
  unfold GeminiClient.synthesize_report. run_step.
  destruct (interactions_create b _ n); cbn; eexists; split;
    try reflexivity; auto.
  intros F; exfalso; revert F; no_fault.
Qed.

Lemma gemini_generate_infographic_absorbs (b : gemini_backend) text n :
  exists r,
    out (GeminiClient.generate_infographic b text n) = Returned r
    /\ (model_faulted (evs (GeminiClient.generate_infographic b text n))
        -> r = None).
Proof.
  unfold GeminiClient.generate_infographic. run_step.
  destruct (models_generate_content b _ _ n) as [resp|e]; cbn.
  - destruct (candidates resp); cbn; eexists; split; try reflexivity;
      intros F; exfalso; revert F; no_fault.
  - eexists; split; [reflexivity|auto].
Qed.

Lemma openai_create_plan_absorbs (b : openai_backend) model goal n :
  exists r,
    out (OpenAICompatibleClient.create_plan b model goal n) = Returned r
    /\ (model_faulted (evs (OpenAICompatibleClient.create_plan b model goal n))
        -> r = None).
Proof.
  unfold OpenAICompatibleClient.create_plan. run_step.
  destruct (chat_completions_create b model _ n) as [resp|e]; cbn.
  - destruct (choices resp); cbn; eexists; split; try reflexivity; auto.
    intros F; exfalso; revert F; no_fault.
  - eexists; split; [reflexivity|auto].
Qed.

Lemma openai_synthesize_report_absorbs (b : openai_backend) model data ctx n :
  exists r,
    out (OpenAICompatibleClient.synthesize_report b model data ctx n) = Returned r
    /\ (model_faulted
          (evs (OpenAICompatibleClient.synthesize_report b model data ctx n))
        -> r = Some "").
Proof.
  unfold OpenAICompatibleClient.synthesize_report. run_step.
  destruct (chat_completions_create b model _ n) as [resp|e]; cbn.
  - destruct (choices resp); cbn; eexists; split; try reflexivity; auto.
    intros F; exfalso; revert F; no_fault.
  - eexists; split; [reflexivity|auto].
Qed.

Lemma search_faulted_app l1 l2 :
  search_faulted (l1 ++ l2) <-> search_faulted l1 \/ search_faulted l2.
Proof.
  unfold search_faulted. split.
  - intros [e H]. apply in_app_or in H. destruct H; [left|right]; eauto.
  - intros [[e H]|[e H]]; exists e; apply in_or_app; auto.
Qed.

(** One iteration of the research loop: a failing search ends the loop
    with the exception; otherwise one section is appended, after exactly
    one model call, and the loop goes on with the next task. *)
Lemma research_loop_step (b : openai_backend) (model : string) (total : Z)
    (task : string) (rest : list string) (idx : Z) (acc : list string) (n : nat) :
  (exists e,
     ddgs_text b task 3 n = Fault e
     /\ OpenAICompatibleClient.research_loop b model total idx (task :: rest) acc n
        = Run (Raised e) (S n)
            [StatusText ("Searching: " ++ substring 0 50 task ++ "...");
             SearchCall (Some e)])
  \/ (exists hits section f,
        ddgs_text b task 3 n = Ok hits
        /\ section_for task section
        /\ OpenAICompatibleClient.research_loop b model total idx (task :: rest) acc n
           = Run
               (out (OpenAICompatibleClient.research_loop b model total
                       (idx + 1) rest (acc ++ [section]) (S (S n))))
               (next (OpenAICompatibleClient.research_loop b model total
                       (idx + 1) rest (acc ++ [section]) (S (S n))))
               (StatusText ("Searching: " ++ substring 0 50 task ++ "...")
                :: SearchCall None :: ModelCall f
                :: Progress (Py.pct (idx + 1) total)
                :: evs (OpenAICompatibleClient.research_loop b model total
                          (idx + 1) rest (acc ++ [section]) (S (S n))))).
Proof.
  cbn [OpenAICompatibleClient.research_loop].
  unfold bind, try_except, call, emit, ret, index0, raise.
  destruct (ddgs_text b task 3 n) as [hits|e]; cbn.
  2:{ left. exists e. split; reflexivity. }
  right. exists hits.
  set (ctx := Py.join Py.nl (map OpenAICompatibleClient.hit_line hits)).
  destruct (chat_completions_create b model _ (S n)) as [resp|e]; cbn.
  - destruct (choices resp) as [|summary cs]; cbn.
    + exists (OpenAICompatibleClient.section_error task
                (Exn "list index out of range")), None.
      split; [reflexivity|]. split; [right; eexists; reflexivity|].
      destruct (OpenAICompatibleClient.research_loop b model total _ rest _ _);
        reflexivity.
    + exists (OpenAICompatibleClient.section_ok task summary ctx), None.
      split; [reflexivity|]. split; [left; eexists; eexists; reflexivity|].
      destruct (OpenAICompatibleClient.research_loop b model total _ rest _ _);
        reflexivity.
  - exists (OpenAICompatibleClient.section_error task e), (Some e).
    split; [reflexivity|]. split; [right; eexists; reflexivity|].
    destruct (OpenAICompatibleClient.research_loop b model total _ rest _ _);
      reflexivity.
Qed.




(** One iteration of the research loop whose search succeeds: the section
    appended is the one of the model's reply. *)
Lemma research_loop_step_exact (b : openai_backend) (model : string) (total : Z)
    (task : string) (rest : list string) (idx : Z) (acc : list string) (n : nat)
    (hits : list search_hit) :
  ddgs_text b task 3 n = Ok hits ->
  exists f,
    OpenAICompatibleClient.research_loop b model total idx (task :: rest) acc n
    = Run
        (out (OpenAICompatibleClient.research_loop b model total (idx + 1) rest
                (acc ++ [section_of_reply task hits
                           (analysis_reply b model task hits (S n))])%list
                (S (S n))))
        (next (OpenAICompatibleClient.research_loop b model total (idx + 1) rest
                 (acc ++ [section_of_reply task hits
                            (analysis_reply b model task hits (S n))])%list
                 (S (S n))))
        (StatusText ("Searching: " ++ substring 0 50 task ++ "...")
         :: SearchCall None :: ModelCall f
         :: Progress (Py.pct (idx + 1) total)
         :: evs (OpenAICompatibleClient.research_loop b model total (idx + 1)
                   rest
                   (acc ++ [section_of_reply task hits
                              (analysis_reply b model task hits (S n))])%list
                   (S (S n))))%list.
Proof.
  intros Hs.
  cbn [OpenAICompatibleClient.research_loop].
  unfold bind, try_except, call, emit, ret, index0, raise.
  rewrite Hs. cbn.
  unfold section_of_reply, analysis_reply.
  destruct (chat_completions_create b model _ (S n)) as [resp|e]; cbn.
  - destruct (choices resp) as [|summary cs]; cbn; exists None;
      destruct (OpenAICompatibleClient.research_loop b model total _ rest _ _);
      reflexivity.
  - exists (Some e).
    destruct (OpenAICompatibleClient.research_loop b model total _ rest _ _);
      reflexivity.
Qed.

(** The sections of a research loop without failing search: the section of
    the task at position [i] is the one of the reply to its analysis
    prompt, asked at call [n + 2 i + 1] after the search at call
    [n + 2 i]. *)
Lemma research_loop_exact (b : openai_backend) (model : string) (total : Z) :
  forall (ts : list string) (idx : Z) (acc : list string) (n : nat),
    ~ search_faulted
        (evs (OpenAICompatibleClient.research_loop b model total idx ts acc n)) ->
    exists sections,
      out (OpenAICompatibleClient.research_loop b model total idx ts acc n)
      = Returned (acc ++ sections)%list
      /\ List.length sections = List.length ts
      /\ forall i task,
           nth_error ts i = Some task ->
           exists hits,
             ddgs_text b task 3 (n + 2 * i) = Ok hits
             /\ nth_error sections i
                = Some (section_of_reply task hits
                          (analysis_reply b model task hits (n + 2 * i + 1))).
Proof.
  induction ts as [|task rest IH]; intros idx acc n Hs.
  - exists []. cbn. rewrite app_nil_r. split; [reflexivity|].
    split; [reflexivity|]. intros i task E. destruct i; discriminate.
  - destruct (ddgs_text b task 3 n) as [hits|e] eqn:Hd.
    2:{ exfalso. apply Hs.
        destruct (research_loop_step b model total task rest idx acc n)
          as [[e' [_ E]]|[hits [section [f [Hok _]]]]]; [|congruence].
        rewrite E. exists e'. cbn. auto. }
    destruct (research_loop_step_exact b model total task rest idx acc n hits Hd)
      as [f E].
    rewrite E in Hs |- *. cbn [out evs] in *.
    destruct (IH (idx + 1)%Z
                (acc ++ [section_of_reply task hits
                           (analysis_reply b model task hits (S n))])%list
                (S (S n))) as [secs [Ho [Hl Hi]]].
    { intros [e F]. apply Hs. exists e. cbn.
      right. right. right. right. exact F. }
    exists (section_of_reply task hits (analysis_reply b model task hits (S n))
            :: secs).
    rewrite Ho, <- app_assoc. cbn [app List.length].
    split; [reflexivity|]. split; [congruence|].
    intros i t Ei. destruct i as [|i]; cbn in Ei.
    + inversion Ei; subst t. exists hits.
      rewrite Nat.mul_0_r, Nat.add_0_r. split; [exact Hd|].
      cbn. rewrite Nat.add_1_r. reflexivity.
    + destruct (Hi i t Ei) as [hits' [Hd' Hn']]. exists hits'.
      replace (n + 2 * S i)%nat with (S (S n) + 2 * i)%nat by lia.
      split; [exact Hd'|]. cbn. exact Hn'.
Qed.

Lemma stateless_research_exact
    (b : openai_backend) (model : string) (ts : list string)
    (ctx : option string) (n : nat) :
  ~ search_faulted (evs (OpenAICompatibleClient.execute_research b model ts ctx n)) ->
  exists sections,
    out (OpenAICompatibleClient.execute_research b model ts ctx n)
    = Returned (Some {| r_id := None;
                        r_text := Some (Py.join (Py.nl ++ Py.nl) sections);
                        r_raw := RawSections sections |})
    /\ List.length sections = List.length ts
    /\ forall i task,
         nth_error ts i = Some task ->
         exists hits,
           ddgs_text b task 3 (n + 2 * i) = Ok hits
           /\ nth_error sections i
              = Some (section_of_reply task hits
                        (analysis_reply b model task hits (n + 2 * i + 1))).
Proof.
  unfold OpenAICompatibleClient.execute_research, bind, emit, ret.
  intros Hs.
  destruct (research_loop_exact b model (Z.of_nat (List.length ts)) ts 0 [] n)
    as [secs [Ho H]].
  { intros [e F]. apply Hs. exists e.
    destruct (OpenAICompatibleClient.research_loop b model _ 0 ts [] n)
      as [[a|e'|] n1 l1]; cbn in *; auto.
    right. apply in_or_app. auto. }
  exists secs. split; [|exact H].
  destruct (OpenAICompatibleClient.research_loop b model _ 0 ts [] n)
    as [[a|e'|] n1 l1]; cbn in *; try discriminate.
  inversion Ho; subst. reflexivity.
Qed.

(** ** C2: faults at the adapter boundary *)

(** C2, as stated, fails: in the stateless [execute_research] a fault of the
    model backend is absorbed, but the caller receives a result with an
    inline error section, not the "no result" sentinel. *)
Lemma stateless_research_model_fault_gives_result :
  In (ModelCall (Some (Exn "connection refused")))
     (evs (OpenAICompatibleClient.execute_research
             Samples.openai_down "llama3" ["1. a"] None 0))
  /\ out (OpenAICompatibleClient.execute_research
            Samples.openai_down "llama3" ["1. a"] None 0)
     = Returned
         (Some {| r_id := None;
                  r_text := Some ("### Research for: 1. a" ++ Py.nl
                                  ++ "Error: connection refused");
                  r_raw := RawSections
                             ["### Research for: 1. a" ++ Py.nl
                              ++ "Error: connection refused"] |}).
Proof. split; vm_compute; auto. Qed.

(** C2 (amended): [create_plan], [synthesize_report] and
    [generate_infographic] of both adapters and [execute_research] of the
    stateful adapter always return, and return their "no result" value
    ([None]; the empty string for [synthesize_report]) when a call to the
    model backend failed inside them. The stateless [execute_research]
    absorbs the faults of the model backend as well, but returns a result
    (not the sentinel) whenever no search call failed: the result has one
    section per task, in task order, and the section of a task is the
    inline error section with the exception of its model call when that
    call failed (or when the completion has no choice), and the summary
    with its sources otherwise. *)
Theorem adapters_absorb_model_faults
    (gb : gemini_backend) (ob : openai_backend) (model goal data : string)
    (ts : list string) (ctx image_text : option string) (n : nat) :
  (exists r, out (GeminiClient.create_plan gb goal n) = Returned r
     /\ (model_faulted (evs (GeminiClient.create_plan gb goal n)) -> r = None))
  /\ (exists r, out (GeminiClient.execute_research gb ts ctx n) = Returned r
     /\ (model_faulted (evs (GeminiClient.execute_research gb ts ctx n))
         -> r = None))
  /\ (exists r, out (GeminiClient.synthesize_report gb data ctx n) = Returned r
     /\ (model_faulted (evs (GeminiClient.synthesize_report gb data ctx n))
         -> r = Some ""))
  /\ (exists r, out (GeminiClient.generate_infographic gb image_text n) = Returned r
     /\ (model_faulted (evs (GeminiClient.generate_infographic gb image_text n))
         -> r = None))
  /\ (exists r, out (OpenAICompatibleClient.create_plan ob model goal n) = Returned r
     /\ (model_faulted (evs (OpenAICompatibleClient.create_plan ob model goal n))
         -> r = None))
  /\ (exists r,
        out (OpenAICompatibleClient.synthesize_report ob model data ctx n)
        = Returned r
     /\ (model_faulted
           (evs (OpenAICompatibleClient.synthesize_report ob model data ctx n))
         -> r = Some ""))
  /\ OpenAICompatibleClient.generate_infographic image_text n
     = Run (Returned None) n []
  /\ (~ search_faulted
          (evs (OpenAICompatibleClient.execute_research ob model ts ctx n)) ->
      exists sections,
        out (OpenAICompatibleClient.execute_research ob model ts ctx n)
        = Returned (Some {| r_id := None;
                            r_text := Some (Py.join (Py.nl ++ Py.nl) sections);
                            r_raw := RawSections sections |})
        /\ List.length sections = List.length ts
        /\ forall i task,
             nth_error ts i = Some task ->
             exists hits,
               ddgs_text ob task 3 (n + 2 * i) = Ok hits
               /\ nth_error sections i
                  = Some (section_of_reply task hits
                            (analysis_reply ob model task hits (n + 2 * i + 1)))
               /\ (forall e,
                     analysis_reply ob model task hits (n + 2 * i + 1) = Fault e ->
                     nth_error sections i
                     = Some (OpenAICompatibleClient.section_error task e))).
Proof.
  split; [apply gemini_create_plan_absorbs|].
  split; [apply gemini_execute_research_absorbs|].
  split; [apply gemini_synthesize_report_absorbs|].
  split; [apply gemini_generate_infographic_absorbs|].
  split; [apply openai_create_plan_absorbs|].
  split; [apply openai_synthesize_report_absorbs|].
  split; [reflexivity|].
  intros Hs.
  destruct (stateless_research_exact ob model ts ctx n Hs)
    as [secs [Ho [Hl Hi]]].
  exists secs. split; [exact Ho|]. split; [exact Hl|].
  intros i task Ei. destruct (Hi i task Ei) as [hits [Hd Hn]].
  exists hits. split; [exact Hd|]. split; [exact Hn|].
  intros e He. rewrite Hn, He. reflexivity.
Qed.

Lemma adapters_absorb_model_faults_witness :
  out (GeminiClient.create_plan Samples.gemini_down "Goal" 0) = Returned None
  /\ exists sections,
       out (OpenAICompatibleClient.execute_research
              Samples.openai_down "llama3" Samples.three_tasks None 0)
       = Returned (Some {| r_id := None;
                           r_text := Some (Py.join (Py.nl ++ Py.nl) sections);
                           r_raw := RawSections sections |})
       /\ List.length sections = 3%nat
       /\ nth_error sections 1
          = Some ("### Research for: 2. b" ++ Py.nl
                  ++ "Error: connection refused").
Proof.
  destruct (adapters_absorb_model_faults Samples.gemini_down Samples.openai_down
              "llama3" "Goal" "Findings" Samples.three_tasks None None 0)
    as [[r [Ho Hf]] [_ [_ [_ [_ [_ [_ Hr]]]]]]].
  split.
  - rewrite Ho. f_equal. apply Hf.
    exists (Exn "503 unavailable"). vm_compute. auto.
  - destruct Hr as [secs [Hs [Hl Hi]]].
    + intros [e F]. vm_compute in F.
      repeat (destruct F as [F|F]; [discriminate|]). exact F.
    + exists secs. split; [exact Hs|]. split; [exact Hl|].
      destruct (Hi 1%nat "2. b" eq_refl) as [hits [_ [_ He]]].
      apply (He (Exn "connection refused")). reflexivity.
Defined.

(** ** C3: isolation of per-task failures in the stateless adapter *)

(** C3 at the failing input: with three tasks and a search provider that
    fails on the second one, the stateless [execute_research] raises the
    exception of the search call; no result is returned. *)
Theorem stateless_research_search_fault_escapes :
  out (OpenAICompatibleClient.execute_research
         Samples.search_flaky "llama3" Samples.three_tasks None 0)
  = Raised (Exn "rate limited").
Proof. vm_compute. reflexivity. Qed.

(** ** C10: the failure value of [synthesize_report] *)

(** C10: when the model backend fails, [synthesize_report] of both adapters
    returns the empty string, whereas [create_plan] of both adapters and
    [execute_research] of the stateful adapter return [None]; the empty
    string is not [None], it is only falsy, and that is how the driver
    detects the failure: it reports "Synthesis failed" and keeps the stored
    synthesis text. *)
Theorem synthesis_failure_is_empty_string
    (gb : gemini_backend) (ob : openai_backend) (model goal data : string)
    (ts : list string) (ctx : option string) (n : nat)
    (sp : provider) (client : LLMClient) (ss : session_state)
    (research : string) :
  (model_faulted (evs (GeminiClient.synthesize_report gb data ctx n)) ->
   out (GeminiClient.synthesize_report gb data ctx n) = Returned (Some ""))
  /\ (model_faulted
        (evs (OpenAICompatibleClient.synthesize_report ob model data ctx n)) ->
      out (OpenAICompatibleClient.synthesize_report ob model data ctx n)
      = Returned (Some ""))
  /\ (model_faulted (evs (GeminiClient.create_plan gb goal n)) ->
      out (GeminiClient.create_plan gb goal n) = Returned None)
  /\ (model_faulted (evs (OpenAICompatibleClient.create_plan ob model goal n)) ->
      out (OpenAICompatibleClient.create_plan ob model goal n) = Returned None)
  /\ (model_faulted (evs (GeminiClient.execute_research gb ts ctx n)) ->
      out (GeminiClient.execute_research gb ts ctx n) = Returned None)
  /\ (Some "" <> (None : option string) /\ Py.truthy (Some "") = false)
  /\ (research_text ss = Some research -> Py.truthy_str research = true ->
      out (synthesize_report client research (research_id ss) n)
      = Returned (Some "") ->
      In (StError "Synthesis failed")
         (evs (Driver.on_generate_report sp client ss n))
      /\ forall ss',
           out (Driver.on_generate_report sp client ss n) = Returned ss' ->
           synthesis_text ss' = synthesis_text ss).
Proof.
  repeat match goal with |- _ /\ _ => split end.
  - destruct (gemini_synthesize_report_absorbs gb data ctx n) as [r [Ho Hf]].
    intros F. rewrite Ho, (Hf F). reflexivity.
  - destruct (openai_synthesize_report_absorbs ob model data ctx n) as [r [Ho Hf]].
    intros F. rewrite Ho, (Hf F). reflexivity.
  - destruct (gemini_create_plan_absorbs gb goal n) as [r [Ho Hf]].
    intros F. rewrite Ho, (Hf F). reflexivity.
  - destruct (openai_create_plan_absorbs ob model goal n) as [r [Ho Hf]].
    intros F. rewrite Ho, (Hf F). reflexivity.
  - destruct (gemini_execute_research_absorbs gb ts ctx n) as [r [Ho Hf]].
    intros F. rewrite Ho, (Hf F). reflexivity.
  - discriminate.
  - reflexivity.
  - intros Hr Ht Hs. unfold Driver.on_generate_report. rewrite Hr, Ht.
    unfold bind, emit, ret.
    destruct (synthesize_report client _ _ n) as [o n1 l1]. cbn in Hs. subst o.
    cbn.
    destruct (generate_infographic client (synthesis_text ss) n1)
      as [[img|e|] n2 l2]; cbn.
    + destruct (Py.truthy img); [|destruct (is_gemini sp)]; cbn;
        (split; [apply in_or_app; right; left; reflexivity|]);
        intros ss' H; inversion H; reflexivity.
    + split; [apply in_or_app; right; left; reflexivity|discriminate].
    + split; [apply in_or_app; right; left; reflexivity|discriminate].
Qed.

Lemma synthesis_failure_is_empty_string_witness :
  out (GeminiClient.synthesize_report Samples.gemini_down "Findings" None 0)
  = Returned (Some "")
  /\ In (StError "Synthesis failed")
        (evs (Driver.on_generate_report GoogleGemini
                (gemini_client Samples.gemini_down) Samples.ss_full 0)).
Proof.
  destruct (synthesis_failure_is_empty_string Samples.gemini_down
              Samples.openai_down "llama3" "Goal" "Findings"
              Samples.three_tasks None 0 GoogleGemini
              (gemini_client Samples.gemini_down) Samples.ss_full
              "Old findings")
    as [H1 [_ [_ [_ [_ [_ H7]]]]]].
  split.
  - apply H1. exists (Exn "503 unavailable"). vm_compute. auto.
  - apply H7; reflexivity.
Defined.

(** ** C8: the driver and the selected provider *)

(** C8, as stated, fails: with the stateful adapter under "Google Gemini"
    and the stateless adapter under "Ollama", both returning the report
    "Report" and no infographic, the driver makes the same state update but
    shows the infographic warning for Gemini only. *)
Lemma driver_warns_for_gemini_only :
  out (synthesize_report (gemini_client Samples.gemini_report)
         "Old findings" (Some "res-0") 0)
  = out (synthesize_report (openai_client Samples.openai_ok "llama3")
           "Old findings" (Some "res-0") 0)
  /\ out (generate_infographic (gemini_client Samples.gemini_report)
            (Some "Report") 1)
     = out (generate_infographic (openai_client Samples.openai_ok "llama3")
              (Some "Report") 1)
  /\ out (Driver.on_generate_report GoogleGemini
            (gemini_client Samples.gemini_report) Samples.ss_full 0)
     = out (Driver.on_generate_report Ollama
              (openai_client Samples.openai_ok "llama3") Samples.ss_full 0)
  /\ messages (evs (Driver.on_generate_report GoogleGemini
                      (gemini_client Samples.gemini_report) Samples.ss_full 0))
     = [StWarning "Infographic generation failed or not supported."]
  /\ messages (evs (Driver.on_generate_report Ollama
                      (openai_client Samples.openai_ok "llama3")
                      Samples.ss_full 0))
     = [].
Proof. repeat split. Qed.

Lemma without_infographic_warning_app l1 l2 :
  without_infographic_warning (l1 ++ l2)
  = (without_infographic_warning l1 ++ without_infographic_warning l2)%list.
Proof. apply filter_app. Qed.

(** C8 (amended): the state a handler stores and the messages it shows
    depend on the adapter only through what its calls return and show,
    with one exception: when no infographic comes back, the warning
    "Infographic generation failed or not supported." is shown if and only
    if the selected provider is "Google Gemini". The last part gives what
    "Generate Executive Report" shows in full: the events of the synthesis
    call, "Synthesis failed" when the synthesis is empty, the events of the
    infographic call, that warning when the image is empty and the
    provider is "Google Gemini", nothing in its place otherwise, and the
    rerun. *)
Theorem driver_depends_on_replies
    (p1 p2 : provider) (c1 c2 : LLMClient) (ss : session_state)
    (goal research : string) (sel : list string) (n1 n2 : nat) :
  (same_reply (create_plan c1 goal n1) (create_plan c2 goal n2) ->
   same_reply (Driver.on_generate_plan c1 goal ss n1)
              (Driver.on_generate_plan c2 goal ss n2))
  /\ (same_reply (execute_research c1 sel (plan_id ss) n1)
                 (execute_research c2 sel (plan_id ss) n2) ->
      same_reply (Driver.on_start_research c1 sel ss n1)
                 (Driver.on_start_research c2 sel ss n2))
  /\ (research_text ss = Some research ->
      same_reply (synthesize_report c1 research (research_id ss) n1)
                 (synthesize_report c2 research (research_id ss) n2) ->
      (forall t,
         same_reply
           (generate_infographic c1 t
              (next (synthesize_report c1 research (research_id ss) n1)))
           (generate_infographic c2 t
              (next (synthesize_report c2 research (research_id ss) n2)))) ->
      out (Driver.on_generate_report p1 c1 ss n1)
      = out (Driver.on_generate_report p2 c2 ss n2)
      /\ without_infographic_warning
           (messages (evs (Driver.on_generate_report p1 c1 ss n1)))
         = without_infographic_warning
             (messages (evs (Driver.on_generate_report p2 c2 ss n2)))
      /\ (is_gemini p1 = is_gemini p2 ->
          messages (evs (Driver.on_generate_report p1 c1 ss n1))
          = messages (evs (Driver.on_generate_report p2 c2 ss n2))))
  /\ (forall (v image : option string) (m1 m2 : nat) (l1 l2 : list event),
        research_text ss = Some research ->
        Py.truthy_str research = true ->
        synthesize_report c1 research (research_id ss) n1
        = Run (Returned v) m1 l1 ->
        generate_infographic c1 (if Py.truthy v then v else synthesis_text ss) m1
        = Run (Returned image) m2 l2 ->
        evs (Driver.on_generate_report p1 c1 ss n1)
        = (l1
           ++ (if Py.truthy v then [] else [StError "Synthesis failed"])
           ++ l2
           ++ (if Py.truthy image then []
               else match p1 with
                    | GoogleGemini => [StWarning infographic_warning]
                    | OpenRouter | Ollama | VLLM => []
                    end)
           ++ [Rerun])%list).
Proof.
  unfold same_reply, messages, without_infographic_warning.
  repeat match goal with |- _ /\ _ => split end.
  - unfold Driver.on_generate_plan, bind, emit, ret.
    destruct (create_plan c1 goal n1) as [o1 m1 l1].
    destruct (create_plan c2 goal n2) as [o2 m2 l2].
    cbn. intros [Ho Hm]. subst o2.
    destruct o1 as [[r|]|e|]; cbn; auto.
    + destruct (r_text r) as [plan|]; [destruct (Py.truthy_str plan)|];
        cbn; rewrite !filter_app, Hm; auto.
    + rewrite !filter_app, Hm. auto.
  - unfold Driver.on_start_research, bind, emit, ret.
    destruct (execute_research c1 sel (plan_id ss) n1) as [o1 m1 l1].
    destruct (execute_research c2 sel (plan_id ss) n2) as [o2 m2 l2].
    cbn. intros [Ho Hm]. subst o2.
    destruct o1 as [[r|]|e|]; cbn; auto.
    + destruct (Py.truthy (r_text r)); cbn; rewrite !filter_app, Hm; auto.
    + rewrite !filter_app, Hm. auto.
  - unfold Driver.on_generate_report, bind, emit, ret.
    intros Hr. rewrite Hr.
    destruct (Py.truthy_str research); [|cbn; auto].
    destruct (synthesize_report c1 _ _ n1) as [o1 m1 l1].
    destruct (synthesize_report c2 _ _ n2) as [o2 m2 l2].
    cbn. intros [Ho Hm] Hi. subst o2.
    destruct o1 as [v|e|]; cbn;
      [|rewrite Hm; auto|rewrite Hm; auto].
    destruct (Py.truthy v); cbn.
    + specialize (Hi v).
      destruct (generate_infographic c1 v m1) as [o1 k1 j1].
      destruct (generate_infographic c2 v m2) as [o2 k2 j2].
      cbn in Hi. destruct Hi as [Ho Hj]. subst o2.
      destruct o1 as [img|e|]; cbn;
        rewrite ?app_nil_r, ?filter_app, ?Hm, ?Hj; auto.
      destruct (Py.truthy img); cbn;
        rewrite ?app_nil_r, ?filter_app, ?Hm, ?Hj; auto.
      destruct (is_gemini p1), (is_gemini p2); cbn;
        rewrite ?app_nil_r, ?filter_app, ?Hm, ?Hj; cbn;
        repeat split; auto; discriminate.
    + specialize (Hi (synthesis_text ss)).
      destruct (generate_infographic c1 _ m1) as [o1 k1 j1].
      destruct (generate_infographic c2 _ m2) as [o2 k2 j2].
      cbn in Hi. destruct Hi as [Ho Hj]. subst o2.
      destruct o1 as [img|e|]; [destruct (Py.truthy img);
        [|destruct (is_gemini p1), (is_gemini p2)]| |];
        repeat (first [rewrite app_nil_r | rewrite filter_app | progress cbn]);
        rewrite ?Hm, ?Hj; repeat split; auto; discriminate.
  - intros v image m1 m2 l1 l2 Hr Ht Hs Hi.
    unfold Driver.on_generate_report, bind, emit, ret.
    rewrite Hr, Ht, Hs.
    destruct (Py.truthy v); cbn; rewrite Hi;
      destruct (Py.truthy image); [| destruct p1 | | destruct p1];
      cbn; rewrite <- ?app_assoc; reflexivity.
Qed.

Lemma driver_depends_on_replies_witness :
  out (Driver.on_generate_report GoogleGemini
         (gemini_client Samples.gemini_report) Samples.ss_full 0)
  = out (Driver.on_generate_report Ollama
           (openai_client Samples.openai_ok "llama3") Samples.ss_full 0)
  /\ evs (Driver.on_generate_report GoogleGemini
            (gemini_client Samples.gemini_report) Samples.ss_full 0)
     = [ModelCall None; ModelCall None;
        StWarning "Infographic generation failed or not supported."; Rerun]
  /\ evs (Driver.on_generate_report Ollama
            (openai_client Samples.openai_ok "llama3") Samples.ss_full 0)
     = [ModelCall None; Rerun].
Proof.
  split; [|split].
  - refine (proj1 (proj1 (proj2 (proj2
      (driver_depends_on_replies GoogleGemini Ollama
         (gemini_client Samples.gemini_report)
         (openai_client Samples.openai_ok "llama3")
         Samples.ss_full "Goal" "Old findings" Samples.three_tasks 0 0))) _ _ _)).
    + reflexivity.
    + split; reflexivity.
    + intros t. split; reflexivity.
  - refine (proj2 (proj2 (proj2
      (driver_depends_on_replies GoogleGemini Ollama
         (gemini_client Samples.gemini_report)
         (openai_client Samples.openai_ok "llama3")
         Samples.ss_full "Goal" "Old findings" Samples.three_tasks 0 0)))
      (Some "Report") None 1 2 [ModelCall None] [ModelCall None] _ _ _ _);
      reflexivity.
  - refine (proj2 (proj2 (proj2
      (driver_depends_on_replies Ollama GoogleGemini
         (openai_client Samples.openai_ok "llama3")
         (gemini_client Samples.gemini_report)
         Samples.ss_full "Goal" "Old findings" Samples.three_tasks 0 0)))
      (Some "Report") None 1 1 [ModelCall None] [] _ _ _ _);
      reflexivity.
Defined.

(** ** C4: the poll budget of the stateful adapter *)

(** The four ways one turn of the poll loop can go. *)
Lemma wait_loop_expired (b : gemini_backend) iid timeout fuel elapsed n :
  (timeout <= elapsed)%Z ->
  GeminiClient.wait_loop b fuel iid timeout elapsed n
  = call ModelCall (interactions_get b iid) n.
Proof.
  intros H. assert (E : (elapsed <? timeout)%Z = false) by (apply Z.ltb_ge; lia).
  destruct fuel; cbn [GeminiClient.wait_loop]; rewrite E; reflexivity.
Qed.

Lemma wait_loop_fault (b : gemini_backend) iid timeout fuel elapsed n e :
  (elapsed < timeout)%Z ->
  interactions_get b iid n = Fault e ->
  GeminiClient.wait_loop b (S fuel) iid timeout elapsed n
  = Run (Raised e) (S n) [ModelCall (Some e)].
Proof.
  intros H Hg. apply Z.ltb_lt in H.
  cbn [GeminiClient.wait_loop]. rewrite H. unfold bind, call. rewrite Hg.
  reflexivity.
Qed.

Lemma wait_loop_done (b : gemini_backend) iid timeout fuel elapsed n i :
  (elapsed < timeout)%Z ->
  interactions_get b iid n = Ok i ->
  i_status i <> "in_progress" ->
  GeminiClient.wait_loop b (S fuel) iid timeout elapsed n
  = Run (Returned i) (S n) [ModelCall None; Progress 100; StatusEmpty].
Proof.
  intros H Hg Hs. apply Z.ltb_lt in H. apply String.eqb_neq in Hs.
  cbn [GeminiClient.wait_loop]. rewrite H. unfold bind, call. rewrite Hg, Hs.
  reflexivity.
Qed.

Lemma wait_loop_continue (b : gemini_backend) iid timeout fuel elapsed n i :
  (elapsed < timeout)%Z ->
  interactions_get b iid n = Ok i ->
  i_status i = "in_progress" ->
  GeminiClient.wait_loop b (S fuel) iid timeout elapsed n
  = Run (out (GeminiClient.wait_loop b fuel iid timeout (elapsed + 3) (S n)))
        (next (GeminiClient.wait_loop b fuel iid timeout (elapsed + 3) (S n)))
        (ModelCall None
         :: Progress (Z.min 90 (Py.pct (elapsed + 3) timeout))
         :: StatusElapsed (elapsed + 3)
         :: Sleep 3
         :: evs (GeminiClient.wait_loop b fuel iid timeout (elapsed + 3) (S n))).
Proof.
  intros H Hg Hs. apply Z.ltb_lt in H.
  cbn [GeminiClient.wait_loop]. rewrite H. unfold bind, call, emit.
  rewrite Hg, Hs. cbn.
  destruct (GeminiClient.wait_loop b fuel iid timeout (elapsed + 3) (S n)).
  reflexivity.
Qed.

(** A poll loop that finds the job in progress at each of its [k] polls
    makes one more call and returns what that call answers. *)
Lemma wait_loop_in_progress (b : gemini_backend) (iid : string) (timeout : Z)
    (last : interaction) :
  forall (k fuel : nat) (elapsed : Z) (n : nat),
    (timeout <= elapsed + 3 * Z.of_nat k)%Z ->
    (k = O \/ elapsed + 3 * (Z.of_nat k - 1) < timeout)%Z ->
    (k <= fuel)%nat ->
    (forall j, (j < k)%nat ->
       exists i, interactions_get b iid (n + j) = Ok i
                 /\ i_status i = "in_progress") ->
    interactions_get b iid (n + k) = Ok last ->
    out (GeminiClient.wait_loop b fuel iid timeout elapsed n) = Returned last
    /\ next (GeminiClient.wait_loop b fuel iid timeout elapsed n) = S (n + k).
Proof.
  induction k as [|k IH]; intros fuel elapsed n Hle Hlt Hfuel Hpoll Hlast.
  - rewrite wait_loop_expired by lia.
    unfold call. rewrite Nat.add_0_r in Hlast. rewrite Hlast. cbn.
    rewrite Nat.add_0_r. auto.
  - destruct fuel as [|fuel]; [lia|].
    destruct (Hpoll O) as [i [Hi Hst]]; [lia|].
    rewrite Nat.add_0_r in Hi.
    rewrite (wait_loop_continue b iid timeout fuel elapsed n i) by (auto; lia).
    cbn [out next].
    rewrite Nat.add_succ_r in Hlast |- *.
    apply IH; try lia; try assumption.
    intros j Hj. destruct (Hpoll (S j)) as [i' Hi']; [lia|].
    exists i'. rewrite Nat.add_succ_r in Hi'. exact Hi'.
Qed.

(** C4, as stated, fails: the job is in progress at each of the hundred
    polls of the budget and a last call, made after the budget, finds it
    completed with its findings; the result text is the findings and
    contains neither "completed" nor "in_progress". *)
Lemma timeout_text_may_lack_status :
  out (GeminiClient.execute_research Samples.gemini_late ["1. a"] None 0)
  = Returned
      (Some {| r_id := Some "job-1";
               r_text := Some "Final findings";
               r_raw := RawInteraction
                          {| i_id := "job-1"; i_status := "completed";
                             i_outputs := Some [Output (Some "Final findings")] |} |})
  /\ Py.contains "completed" "Final findings" = false
  /\ Py.contains "in_progress" "Final findings" = false.
Proof. repeat split; vm_compute; reflexivity. Qed.

(** C4 (amended): when each of the hundred polls of the 300-unit budget
    finds the job in progress, [execute_research] returns after one more
    call of [interactions.get]; it returns the interaction that this last
    call answers, and the result text is the joined output text of that
    interaction when it is not empty and "Status: " followed by its status
    otherwise. *)
Theorem research_timeout_returns_last_poll
    (b : gemini_backend) (ts : list string) (ctx : option string) (n : nat)
    (job last : interaction) :
  (forall req, interactions_create b req n = Ok job) ->
  (forall j, (j < 100)%nat ->
     exists i, interactions_get b (i_id job) (S n + j) = Ok i
               /\ i_status i = "in_progress") ->
  interactions_get b (i_id job) (S n + 100) = Ok last ->
  out (GeminiClient.execute_research b ts ctx n)
  = Returned
      (Some {| r_id := Some (i_id last);
               r_text := Some (if Py.truthy_str (get_text (i_outputs last))
                               then get_text (i_outputs last)
                               else "Status: " ++ i_status last);
               r_raw := RawInteraction last |})
  /\ next (GeminiClient.execute_research b ts ctx n) = (n + 102)%nat.
Proof.
  intros Hcreate Hpoll Hlast.
  enough (exists l,
            GeminiClient.execute_research b ts ctx n
            = Run (Returned
                     (Some {| r_id := Some (i_id last);
                              r_text := Some (Py.str_or (get_text (i_outputs last))
                                                ("Status: " ++ i_status last));
                              r_raw := RawInteraction last |}))
                  (n + 102) l) as [l E].
  { rewrite E. split; reflexivity. }
  unfold GeminiClient.execute_research, try_except, bind, call.
  rewrite Hcreate.
  unfold GeminiClient._wait_for_completion, bind, emit.
  destruct (wait_loop_in_progress b (i_id job) 300 last 100 (Z.to_nat 300) 0 (S n))
    as [Ho Hn]; try lia; auto.
  destruct (GeminiClient.wait_loop b (Z.to_nat 300) (i_id job) 300 0 (S n))
    as [o n1 l1]. cbn in Ho, Hn. subst. cbn.
  eexists. f_equal. lia.
Qed.

Lemma research_timeout_returns_last_poll_witness :
  out (GeminiClient.execute_research Samples.gemini_stuck ["1. a"] None 0)
  = Returned
      (Some {| r_id := Some "job-1";
               r_text := Some "Status: in_progress";
               r_raw := RawInteraction
                          {| i_id := "job-1"; i_status := "in_progress";
                             i_outputs := None |} |}).
Proof.
  refine (proj1 (research_timeout_returns_last_poll Samples.gemini_stuck
                   ["1. a"] None 0
                   {| i_id := "job-1"; i_status := "in_progress";
                      i_outputs := None |}
                   {| i_id := "job-1"; i_status := "in_progress";
                      i_outputs := None |} _ _ _)).
  - intros req. reflexivity.
  - intros j _. eexists. split; reflexivity.
  - reflexivity.
Defined.

(** ** C6: progress reported by the polling loop *)

Lemma nondecreasingb_sorted (l : list Z) :
  nondecreasingb l = true -> StronglySorted Z.le l.
Proof.
  intros H. apply Sorted_StronglySorted; [exact Z.le_trans|].
  induction l as [|a l IH]; [constructor|].
  cbn in H. destruct l as [|c l].
  - repeat constructor.
  - apply andb_true_iff in H. destruct H as [Hab H].
    constructor; [apply IH; exact H|].
    constructor. apply Z.leb_le. exact Hab.
Qed.

Lemma StronglySorted_firstn (l : list Z) :
  StronglySorted Z.le l -> forall k, StronglySorted Z.le (firstn k l).
Proof.
  induction 1 as [|a l Hs IH Hall]; intros k.
  - rewrite firstn_nil. constructor.
  - destruct k; cbn; constructor; auto.
    rewrite Forall_forall in *. intros x Hx. apply Hall.
    revert Hx. clear. revert k. induction l as [|c l IHl]; intros k Hx.
    + rewrite firstn_nil in Hx. destruct Hx.
    + destruct k; [destruct Hx|]. cbn in Hx. destruct Hx as [Hx|Hx]; [left|right]; eauto.
Qed.

Lemma StronglySorted_snoc (l : list Z) (a : Z) :
  StronglySorted Z.le l -> Forall (fun x => (x <= a)%Z) l ->
  StronglySorted Z.le (l ++ [a]).
Proof.
  induction 1 as [|b l Hs IH Hall]; intros Hle; cbn.
  - repeat constructor.
  - inversion Hle; subst. constructor; auto.
    apply Forall_app. split; auto.
Qed.

Lemma poll_progress_firstn (timeout : Z) :
  forall (k m : nat) (elapsed : Z),
    (k <= m)%nat ->
    firstn k (poll_progress timeout elapsed m) = poll_progress timeout elapsed k.
Proof.
  induction k as [|k IH]; intros m elapsed H; [reflexivity|].
  destruct m as [|m]; [lia|]. cbn. f_equal. apply IH. lia.
Qed.

Lemma poll_progress_capped (timeout : Z) :
  forall (k : nat) (elapsed : Z),
    Forall (fun p => (p <= 90)%Z) (poll_progress timeout elapsed k).
Proof.
  induction k as [|k IH]; intros elapsed; cbn; constructor; auto.
  apply Z.le_min_l.
Qed.

(** The progress values of the poll loop: the values of [k] polls that
    found the job in progress, followed by 100 exactly when the loop ended
    on a poll that found another status. *)
Lemma wait_loop_progress (b : gemini_backend) (iid : string) (timeout : Z) :
  forall (fuel : nat) (elapsed : Z) (n : nat),
    exists k,
      (k <= fuel)%nat
      /\ (progress_values
            (evs (GeminiClient.wait_loop b fuel iid timeout elapsed n))
          = poll_progress timeout elapsed k
          \/ (progress_values
                (evs (GeminiClient.wait_loop b fuel iid timeout elapsed n))
              = (poll_progress timeout elapsed k ++ [100%Z])%list
              /\ exists i,
                   out (GeminiClient.wait_loop b fuel iid timeout elapsed n)
                   = Returned i
                   /\ i_status i <> "in_progress")).
Proof.
  assert (Hcall : forall n,
    progress_values (evs (call ModelCall (interactions_get b iid) n)) = []).
  { intros n. unfold call. destruct (interactions_get b iid n); reflexivity. }
  induction fuel as [|fuel IH]; intros elapsed n.
  - exists O. split; [lia|]. left.
    cbn [GeminiClient.wait_loop]. destruct (elapsed <? timeout)%Z; [reflexivity|].
    apply Hcall.
  - destruct (Z.lt_ge_cases elapsed timeout) as [Hlt|Hge].
    2:{ exists O. split; [lia|]. left. rewrite wait_loop_expired by lia.
        apply Hcall. }
    destruct (interactions_get b iid n) as [i|e] eqn:Hg.
    2:{ exists O. split; [lia|]. left.
        rewrite (wait_loop_fault b iid timeout fuel elapsed n e) by auto.
        reflexivity. }
    destruct (string_dec (i_status i) "in_progress") as [Hs|Hs].
    + rewrite (wait_loop_continue b iid timeout fuel elapsed n i) by auto.
      destruct (IH (elapsed + 3)%Z (S n)) as [k [Hk H]].
      exists (S k). split; [lia|]. cbn [evs out progress_values poll_progress].
      destruct H as [H|[H Hdone]]; [left|right].
      * rewrite H. reflexivity.
      * rewrite H. split; [reflexivity|exact Hdone].
    + exists O. split; [lia|]. right.
      rewrite (wait_loop_done b iid timeout fuel elapsed n i) by auto.
      split; [reflexivity|]. exists i. auto.
Qed.

(** C6: the progress values reported by [_wait_for_completion] with the
    budget of 300 are non-decreasing; they are at most 90, except for a
    final 100, which is reported only when the loop has ended on a poll
    whose status is not "in_progress". *)
Theorem poll_progress_monotone_capped
    (b : gemini_backend) (iid : string) (n : nat) :
  Sorted Z.le
    (progress_values (evs (GeminiClient._wait_for_completion b iid 300 n)))
  /\ exists while_polling,
       Forall (fun p => (0 <= p <= 90)%Z) while_polling
       /\ (progress_values (evs (GeminiClient._wait_for_completion b iid 300 n))
           = while_polling
           \/ (progress_values
                 (evs (GeminiClient._wait_for_completion b iid 300 n))
               = (while_polling ++ [100%Z])%list
               /\ exists i,
                    out (GeminiClient._wait_for_completion b iid 300 n)
                    = Returned i
                    /\ i_status i <> "in_progress")).
Proof.
  assert (Hall : StronglySorted Z.le (0%Z :: poll_progress 300 0 300)).
  { apply nondecreasingb_sorted. vm_compute. reflexivity. }
  assert (Hpre : forall k, (k <= 300)%nat ->
            StronglySorted Z.le (0%Z :: poll_progress 300 0 k)
            /\ Forall (fun p => (0 <= p <= 90)%Z) (0%Z :: poll_progress 300 0 k)).
  { intros k Hk.
    assert (Hs : StronglySorted Z.le (0%Z :: poll_progress 300 0 k)).
    { rewrite <- (poll_progress_firstn 300 k 300 0 Hk).
      apply (StronglySorted_firstn _ Hall (S k)). }
    split; [exact Hs|].
    constructor; [lia|].
    inversion Hs as [|a l Hs' Hall']; subst.
    pose proof (poll_progress_capped 300 k 0) as Hc.
    rewrite Forall_forall in *. intros p Hp. split; auto. }
  assert (E : forall o m l,
    GeminiClient.wait_loop b (Z.to_nat 300) iid 300 0 n = Run o m l ->
    GeminiClient._wait_for_completion b iid 300 n = Run o m (Progress 0 :: l)).
  { intros o m l E. unfold GeminiClient._wait_for_completion, bind, emit.
    rewrite E. destruct o; reflexivity. }
  destruct (wait_loop_progress b iid 300 (Z.to_nat 300) 0 n) as [k2 [Hk2 H]].
  destruct (Hpre k2) as [Hs2 Hc2]; [lia|].
  destruct (GeminiClient.wait_loop b (Z.to_nat 300) iid 300 0 n) as [o m l] eqn:Ew.
  rewrite (E o m l eq_refl). cbn [evs out progress_values] in *.
  destruct H as [H|[H Hdone]]; rewrite H.
  - split; [apply StronglySorted_Sorted; exact Hs2|].
    exists (0%Z :: poll_progress 300 0 k2). split; [exact Hc2|left; reflexivity].
  - split.
    + apply StronglySorted_Sorted.
      apply (StronglySorted_snoc (0%Z :: poll_progress 300 0 k2) 100 Hs2).
      eapply Forall_impl; [|exact Hc2]. cbn. intros; lia.
    + exists (0%Z :: poll_progress 300 0 k2). split; [exact Hc2|].
      right. split; [reflexivity|exact Hdone].
Qed.

(** ** The task parser *)

Section TaskParser.

Local Open Scope list_scope.
Import Rule.

Lemma span_spec (p : ascii -> bool) (s : list ascii) :
  s = fst (Py.span p s) ++ snd (Py.span p s)
  /\ Forall (fun c => p c = true) (fst (Py.span p s))
  /\ match snd (Py.span p s) with
     | [] => True
     | c :: _ => p c = false
     end.
Proof.
  induction s as [|c s IH]; cbn.
  - auto.
  - destruct (p c) eqn:E.
    + destruct (Py.span p s) as [a b]. cbn in *.
      destruct IH as [H1 [H2 H3]]. repeat split; auto. congruence.
    + cbn. auto.
Qed.

Lemma span_app (p : ascii -> bool) (a b : list ascii) :
  Forall (fun c => p c = true) a ->
  match b with [] => True | c :: _ => p c = false end ->
  Py.span p (a ++ b) = (a, b).
Proof.
  intros Ha Hb. induction Ha as [|c a Hc Ha IH]; cbn.
  - destruct b as [|c b]; [reflexivity|]. cbn. rewrite Hb. reflexivity.
  - rewrite Hc, IH. reflexivity.
Qed.

Lemma sep_not_digit (c : ascii) : Py.is_sep c = true -> Py.isdigit c = false.
Proof.
  unfold Py.is_sep, Py.isdigit. intros H.
  apply orb_true_iff in H. destruct H as [H|H].
  - apply orb_true_iff in H. destruct H as [H|H]; apply Nat.eqb_eq in H;
      rewrite H; reflexivity.
  - apply Nat.eqb_eq in H. rewrite H. reflexivity.
Qed.


Lemma nl_not_digit (c : ascii) : Py.is_nl c = true -> Py.isdigit c = false.
Proof.
  unfold Py.is_nl, Py.isdigit. intros H. apply Nat.eqb_eq in H.
  rewrite H. reflexivity.
Qed.

(** The two tests of the matcher against the rule. *)
Lemma at_ordinal_iff (s : list ascii) :
  Pattern.at_ordinal s = true <-> ordinal_start s.
Proof.
  unfold Pattern.at_ordinal, ordinal_start.
  destruct (span_spec Py.isdigit s) as [H1 [H2 H3]].
  destruct (Py.span Py.isdigit s) as [a b]. cbn in *. split.
  - destruct a as [|d a]; [discriminate|].
    destruct b as [|c b]; [discriminate|]. intros Hc.
    exists (d :: a), c, b. repeat split; auto. discriminate.
  - intros [ds [c [rest [E [Hne [Hd Hc]]]]]].
    assert (Hsp : Py.span Py.isdigit s = (ds, c :: rest)).
    { rewrite E. apply span_app; [exact Hd|]. apply sep_not_digit, Hc. }
    assert (Hab : (a, b) = (ds, c :: rest)).
    { rewrite <- Hsp. rewrite H1 at 1.
      symmetry. apply span_app; [exact H2|exact H3]. }
    inversion Hab; subst. destruct ds; [congruence|]. exact Hc.
Qed.

Lemma lookahead_iff (s : list ascii) :
  Pattern.lookahead s = true <-> body_end s.
Proof.
  unfold body_end. destruct s as [|c1 s]; cbn.
  - split; auto.
  - split.
    + intros H. apply andb_true_iff in H. destruct H as [H1 H2].
      destruct s as [|c2 s]; [discriminate|].
      apply orb_true_iff in H2. destruct H2 as [H2|H2].
      * right. left. exists c1, c2, s. auto.
      * right. right. exists c1, (c2 :: s). repeat split; auto.
        apply at_ordinal_iff. exact H2.
    + intros [H|[[d1 [d2 [r [E [H1 H2]]]]]|[d1 [r [E [H1 H2]]]]]].
      * discriminate.
      * inversion E; subst. rewrite H1, H2. reflexivity.
      * inversion E; subst. rewrite H1. cbn.
        destruct r as [|c2 r].
        -- destruct H2 as [ds [c [rest [E2 _]]]].
           destruct ds; discriminate.
        -- apply at_ordinal_iff in H2. rewrite H2. apply orb_true_r.
Qed.

Lemma lazy_more_spec (s : list ascii) :
  s = fst (Pattern.lazy_more s) ++ snd (Pattern.lazy_more s)
  /\ Pattern.lookahead (snd (Pattern.lazy_more s)) = true
  /\ forall b1 b2,
       fst (Pattern.lazy_more s) = b1 ++ b2 -> b2 <> [] ->
       Pattern.lookahead (b2 ++ snd (Pattern.lazy_more s)) = false.
Proof.
  induction s as [|c s IH].
  - cbn. repeat split; auto. intros b1 b2 E. destruct b1, b2; try discriminate.
    congruence.
  - cbn [Pattern.lazy_more].
    destruct (Pattern.lookahead (c :: s)) eqn:El.
    + cbn [fst snd]. repeat split; auto.
      intros b1 b2 E. destruct b1, b2; try discriminate. congruence.
    + destruct (Pattern.lazy_more s) as [b r]. cbn [fst snd] in *.
      destruct IH as [H1 [H2 H3]]. repeat split; auto.
      * cbn. congruence.
      * intros b1 b2 E Hne. destruct b1 as [|x b1].
        -- cbn in E. subst b2. cbn. rewrite <- H1. exact El.
        -- inversion E; subst. apply (H3 b1 b2); auto.
Qed.

Lemma lazy_more_unique (b r : list ascii) :
  Pattern.lookahead r = true ->
  (forall b1 b2, b = b1 ++ b2 -> b2 <> [] ->
                 Pattern.lookahead (b2 ++ r) = false) ->
  Pattern.lazy_more (b ++ r) = (b, r).
Proof.
  intros Hr. induction b as [|c b IH]; intros Hmin.
  - cbn. destruct r; [reflexivity|]. cbn [Pattern.lazy_more]. rewrite Hr.
    reflexivity.
  - cbn [app Pattern.lazy_more].
    assert (H0 : Pattern.lookahead ((c :: b) ++ r) = false)
      by (apply (Hmin [] (c :: b)); [reflexivity|discriminate]).
    cbn [app] in H0. rewrite H0.
    rewrite IH; [reflexivity|].
    intros b1 b2 E Hne. apply (Hmin (c :: b1) b2); auto. cbn. congruence.
Qed.

Lemma match_here_sound (s g1 g2 r : list ascii) :
  Pattern.match_here s = Some (g1, g2, r) ->
  exists c ws,
    s = g1 ++ c :: ws ++ g2 ++ r
    /\ g1 <> [] /\ Forall digit g1 /\ separator c /\ task_body ws g2 r.
Proof.
  unfold Pattern.match_here.
  destruct (span_spec Py.isdigit s) as [H1 [H2 H3]].
  destruct (Py.span Py.isdigit s) as [a b]. cbn [fst snd] in *.
  destruct a as [|d ds]; [discriminate|].
  destruct b as [|c s1]; [discriminate|].
  destruct (Py.is_sep c) eqn:Hc; [|discriminate].
  destruct (span_spec Py.isspace s1) as [K1 [K2 K3]].
  destruct (Py.span Py.isspace s1) as [ws s2]. cbn [fst snd] in *.
  destruct s2 as [|x s3].
  - destruct (rev ws) as [|x w] eqn:Er; [discriminate|].
    intros E. inversion E; subst g1 g2 r. clear E.
    assert (Ews : ws = rev w ++ [x]).
    { rewrite <- (rev_involutive ws), Er. reflexivity. }
    exists c, (rev w). subst ws.
    apply Forall_app in K2. destruct K2 as [K2 Kx].
    apply Forall_inv in Kx.
    repeat split; auto; try discriminate.
    + rewrite H1, K1. rewrite app_nil_r. reflexivity.
    + left. reflexivity.
    + intros b1 b2 E Hb1 Hb2. destruct b1 as [|y b1]; [congruence|].
      destruct b1; destruct b2; try discriminate; congruence.
    + right. exists x. auto.
  - destruct (lazy_more_spec s3) as [L1 [L2 L3]].
    destruct (Pattern.lazy_more s3) as [more r']. cbn [fst snd] in *.
    intros E. inversion E; subst g1 g2 r'. clear E.
    exists c, ws. repeat split; auto; try discriminate.
    + rewrite H1, K1, L1. reflexivity.
    + apply lookahead_iff. exact L2.
    + intros b1 b2 E Hb1 Hb2 Hend. destruct b1 as [|y b1]; [congruence|].
      inversion E; subst. apply lookahead_iff in Hend.
      rewrite (L3 b1 b2 eq_refl Hb2) in Hend. discriminate.
    + left. exists x, more. split; [reflexivity|].
      unfold space. rewrite K3. discriminate.
Qed.

Lemma match_here_complete (ds : list ascii) (c : ascii) (ws body r : list ascii) :
  ds <> [] -> Forall digit ds -> separator c -> task_body ws body r ->
  Pattern.match_here (ds ++ c :: ws ++ body ++ r) = Some (ds, body, r).
Proof.
  intros Hne Hd Hc [Hb [Hend [Hmin [Hws Hfirst]]]].
  unfold Pattern.match_here.
  rewrite (span_app Py.isdigit ds (c :: ws ++ body ++ r) Hd (sep_not_digit c Hc)).
  destruct ds as [|d ds]; [congruence|]. rewrite Hc.
  destruct Hfirst as [[x [b [E Hx]]]|[x [E [Hx Hr]]]]; subst body.
  - rewrite (span_app Py.isspace ws ((x :: b) ++ r) Hws).
    2:{ cbn. unfold space in Hx. destruct (Py.isspace x); congruence. }
    cbn [app]. rewrite lazy_more_unique; [reflexivity| |].
    + apply lookahead_iff. exact Hend.
    + intros b1 b2 E Hb2.
      destruct (Pattern.lookahead (b2 ++ r)) eqn:El; [|reflexivity].
      exfalso. apply (Hmin (x :: b1) b2); try discriminate; auto.
      * cbn. congruence.
      * apply lookahead_iff. exact El.
  - subst r. rewrite app_nil_r.
    rewrite <- (app_nil_r (ws ++ [x])).
    rewrite (span_app Py.isspace (ws ++ [x]) []); [|apply Forall_app; auto|exact I].
    rewrite rev_app_distr. reflexivity.
Qed.

Lemma match_here_none_iff (s : list ascii) :
  Pattern.match_here s = None <-> ~ task_start s.
Proof.
  split.
  - intros Hn [ds [c [x [rest [E [Hne [Hd Hc]]]]]]].
    unfold Pattern.match_here in Hn.
    rewrite E, (span_app Py.isdigit ds (c :: x :: rest) Hd (sep_not_digit c Hc))
      in Hn.
    destruct ds as [|d ds]; [congruence|]. rewrite Hc in Hn.
    destruct (span_spec Py.isspace (x :: rest)) as [K1 _].
    destruct (Py.span Py.isspace (x :: rest)) as [ws s2]. cbn [fst snd] in *.
    destruct s2 as [|y s3].
    + rewrite app_nil_r in K1. subst ws.
      destruct (rev (x :: rest)) eqn:Er; [|discriminate].
      apply (f_equal (@List.length ascii)) in Er. rewrite length_rev in Er.
      discriminate.
    + destruct (Pattern.lazy_more s3). discriminate.
  - intros Hn. destruct (Pattern.match_here s) as [[[g1 g2] r]|] eqn:E;
      [|reflexivity].
    exfalso. apply Hn.
    destruct (match_here_sound s g1 g2 r E)
      as [c [ws [Es [Hne [Hd [Hc [Hb _]]]]]]].
    destruct (ws ++ g2 ++ r) as [|x rest] eqn:Ew.
    + apply app_eq_nil in Ew. destruct Ew as [_ Ew].
      apply app_eq_nil in Ew. destruct Ew. congruence.
    + exists g1, c, x, rest. rewrite Es. auto.
Qed.

(** [finditer] resumes after the characters of the previous match. *)
Lemma finditer_skip (r : list ascii) :
  forall (pre : list ascii) (bol : bool),
    Pattern.finditer (List.length pre) bol (pre ++ r)
    = Pattern.finditer 0 (bol_after bol pre) r.
Proof.
  induction pre as [|c pre IH]; intros bol.
  - reflexivity.
  - cbn [List.length app]. 
    replace (Pattern.finditer (S (List.length pre)) bol (c :: pre ++ r))
      with (Pattern.finditer (List.length pre) (Py.is_nl c) (pre ++ r))
      by reflexivity.
    rewrite IH. f_equal. unfold bol_after. cbn [rev].
    destruct (rev pre); reflexivity.
Qed.

Lemma ends_with_newline_app (a b : list ascii) :
  b <> [] -> ends_with_newline (a ++ b) = ends_with_newline b.
Proof.
  intros Hb. unfold ends_with_newline. rewrite rev_app_distr.
  destruct (rev b) eqn:E; [|reflexivity].
  apply (f_equal (@List.length ascii)) in E. rewrite length_rev in E.
  destruct b; [congruence|discriminate].
Qed.

Lemma finditer_match (s g1 g2 r : list ascii) :
  Pattern.match_here s = Some (g1, g2, r) ->
  Pattern.finditer 0 true s
  = (g1, g2) :: Pattern.finditer 0 (ends_with_newline g2) r.
Proof.
  intros E.
  destruct (match_here_sound s g1 g2 r E)
    as [c [ws [Es [Hne [Hd [Hc [Hb _]]]]]]].
  destruct g1 as [|d g1]; [congruence|].
  destruct s as [|d' s']; [discriminate|].
  cbn [Pattern.finditer]. rewrite E. f_equal.
  cbn [app] in Es. inversion Es; subst d' s'. clear Es.
  replace (List.length (d :: g1 ++ c :: ws ++ g2 ++ r) - List.length r - 1)%nat
    with (List.length (g1 ++ c :: ws ++ g2)).
  2:{ cbn [List.length]. rewrite !length_app. cbn [List.length].
      rewrite !length_app. lia. }
  replace (g1 ++ c :: ws ++ g2 ++ r) with ((g1 ++ c :: ws ++ g2) ++ r).
  2:{ rewrite <- !app_assoc. cbn. rewrite <- app_assoc. reflexivity. }
  rewrite finditer_skip. f_equal.
  replace (g1 ++ c :: ws ++ g2) with ((g1 ++ c :: ws) ++ g2)
    by (rewrite <- app_assoc; reflexivity).
  unfold bol_after. rewrite rev_app_distr.
  unfold ends_with_newline.
  destruct (rev g2) eqn:Er; [|reflexivity].
  apply (f_equal (@List.length ascii)) in Er. rewrite length_rev in Er.
  destruct g2; [congruence|discriminate].
Qed.

Lemma finditer_nomatch (bol : bool) (c : ascii) (s : list ascii) :
  bol = false \/ Pattern.match_here (c :: s) = None ->
  Pattern.finditer 0 bol (c :: s) = Pattern.finditer 0 (Py.is_nl c) s.
Proof.
  intros [H|H]; cbn [Pattern.finditer]; [rewrite H|rewrite H; destruct bol];
    reflexivity.
Qed.

Lemma match_here_shorter (s g1 g2 r : list ascii) :
  Pattern.match_here s = Some (g1, g2, r) ->
  (List.length r < List.length s)%nat.
Proof.
  intros E.
  destruct (match_here_sound s g1 g2 r E) as [c [ws [Es _]]].
  rewrite Es, !length_app. cbn. rewrite !length_app. lia.
Qed.

(** What [finditer] returns is what the rule describes. *)
Lemma finditer_matches :
  forall (k : nat) (s : list ascii) (bol : bool),
    (List.length s < k)%nat ->
    matches bol s (Pattern.finditer 0 bol s).
Proof.
  induction k as [|k IH]; intros s bol Hk; [lia|].
  destruct s as [|c s]; [constructor|].
  destruct bol.
  - destruct (Pattern.match_here (c :: s)) as [[[g1 g2] r]|] eqn:E.
    + rewrite (finditer_match _ _ _ _ E).
      pose proof (match_here_shorter _ _ _ _ E) as Hr.
      destruct (match_here_sound _ _ _ _ E)
        as [c' [ws [Es [Hne [Hd [Hc Hb]]]]]].
      rewrite Es. apply matches_task; auto. apply IH. lia.
    + rewrite finditer_nomatch by auto.
      apply matches_skip.
      * right. apply match_here_none_iff. exact E.
      * apply IH. cbn in Hk. lia.
  - rewrite finditer_nomatch by auto.
    apply matches_skip; [auto|]. apply IH. cbn in Hk. lia.
Qed.

(** The rule describes nothing else. *)
Lemma matches_finditer (bol : bool) (s : list ascii) ms :
  matches bol s ms -> ms = Pattern.finditer 0 bol s.
Proof.
  induction 1 as [bol|bol c s ms Hskip Hm IH|ds c ws body r ms Hne Hd Hc Hb Hm IH].
  - reflexivity.
  - rewrite finditer_nomatch; [exact IH|].
    destruct Hskip as [H|H]; [auto|right]. apply match_here_none_iff. exact H.
  - rewrite (finditer_match _ ds body r).
    + rewrite IH. reflexivity.
    + apply match_here_complete; auto.
Qed.

(** *** C5: the extraction rule *)

(** C5, as stated, fails: no whitespace is needed after the separator. *)
Lemma task_without_whitespace :
  parse_tasks "1.Alpha" = [ {| num := "1"; text := "Alpha" |} ].
Proof. reflexivity. Qed.

(** C5 (amended): the tasks returned by [parse_tasks] are exactly those of
    the rule [Rule.matches], in the order of the plan text: a task begins
    at the start of a line with a run of digits, a separator (period,
    closing parenthesis or hyphen), optional whitespace and at least one
    more character; its body runs to the first place where the text ends,
    a blank line begins, or a line begins with digits and a separator; the
    ordinal is carried through as written, and the description is the body
    stripped of whitespace at both ends with each newline replaced by a
    space. *)
Theorem parse_tasks_follows_rule (plan : string) :
  exists ms,
    matches true (list_ascii_of_string plan) ms
    /\ parse_tasks plan
       = map (fun m =>
                {| num := string_of_list_ascii (fst m);
                   text := string_of_list_ascii
                             (Py.replace_nl (Py.strip (snd m))) |}) ms
    /\ forall ms', matches true (list_ascii_of_string plan) ms' -> ms' = ms.
Proof.
  exists (Pattern.finditer 0 true (list_ascii_of_string plan)).
  split; [|split].
  - apply (finditer_matches (S (List.length (list_ascii_of_string plan)))). lia.
  - reflexivity.
  - apply matches_finditer.
Qed.

(** *** C9: parsing a parsed description again *)

Lemma replace_nl_no_newline (l : list ascii) :
  Forall (fun c => Py.is_nl c = false) (Py.replace_nl l).
Proof.
  induction l as [|c l IH]; cbn; constructor; auto.
  destruct (Py.is_nl c) eqn:E; [reflexivity|exact E].
Qed.

Lemma finditer_no_newline (s : list ascii) :
  Forall (fun c => Py.is_nl c = false) s ->
  forall k, Pattern.finditer k false s = [].
Proof.
  induction 1 as [|c s Hc Hs IH]; intros k; [destruct k; reflexivity|].
  destruct k; cbn [Pattern.finditer]; rewrite Hc; apply IH.
Qed.

Lemma finditer_one_line (s : list ascii) :
  Forall (fun c => Py.is_nl c = false) s ->
  Pattern.finditer 0 true s
  = match Pattern.match_here s with
    | Some (g1, g2, _) => [(g1, g2)]
    | None => []
    end.
Proof.
  intros H. destruct H as [|c s Hc Hs]; [reflexivity|].
  cbn [Pattern.finditer].
  destruct (Pattern.match_here (c :: s)) as [[[g1 g2] r]|]; rewrite Hc;
    rewrite finditer_no_newline; auto.
Qed.

(** C9, as stated, fails: the description of the only task of "1. 2. foo"
    is "2. foo", and parsing it yields a task. *)
Lemma description_parsed_again :
  parse_tasks "1. 2. foo" = [ {| num := "1"; text := "2. foo" |} ]
  /\ parse_tasks "2. foo" = [ {| num := "2"; text := "foo" |} ].
Proof. split; reflexivity. Qed.

(** C9 (amended): parsing the description of a parsed task again yields no
    task, unless the description itself begins with digits, a separator and
    at least one more character; it then yields exactly one task. *)
Theorem reparse_description (plan : string) (t : task) :
  In t (parse_tasks plan) ->
  (~ task_start (list_ascii_of_string (text t)) -> parse_tasks (text t) = [])
  /\ (task_start (list_ascii_of_string (text t)) ->
      List.length (parse_tasks (text t)) = 1%nat).
Proof.
  intros Hin. unfold parse_tasks in Hin. apply in_map_iff in Hin.
  destruct Hin as [[g1 g2] [Et _]]. subst t. cbn [text task_of_match snd].
  unfold parse_tasks, clean.
  rewrite list_ascii_of_string_of_list_ascii.
  rewrite (finditer_one_line _ (replace_nl_no_newline _)).
  split; intros H.
  - apply match_here_none_iff in H. rewrite H. reflexivity.
  - destruct (Pattern.match_here _) as [[[h1 h2] r]|] eqn:E; [reflexivity|].
    apply match_here_none_iff in E. contradiction.
Qed.

Lemma reparse_description_witness :
  List.length (parse_tasks "2. foo") = 1%nat.
Proof.
  refine (proj2 (reparse_description "1. 2. foo"
                   {| num := "1"; text := "2. foo" |} _) _).
  - left. reflexivity.
  - exists ["2"%char], "."%char, " "%char, ["f"%char; "o"%char; "o"%char].
    repeat split; try discriminate.
    repeat constructor.
Defined.

(** *** C7: the ordinals of a plan *)











(** C7 at the failing input: the plan text "1. Survey the market" /
    "1. List the vendors" gives a Plan with two tasks of ordinal "1"; the
    task selection, which keys the check box of a task by its ordinal,
    then stops at the second check box with the duplicate-key exception,
    whatever boxes are ticked, so the page shows nothing below the first
    check box. *)
Theorem duplicate_ordinals_stop_selection :
  out (Driver.on_generate_plan (openai_client Samples.openai_dup "llama3")
         "Goal" initial_state 0)
  = Returned Samples.ss_dup
  /\ map num (tasks Samples.ss_dup) = ["1"%string; "1"%string]
  /\ forall (checked : string -> bool) (n : nat),
       Driver.selected checked Samples.ss_dup n
       = Run (Raised (Driver.duplicate_key "t1")) n [].
Proof.
  split; [reflexivity|]. split; [reflexivity|].
  intros checked n. reflexivity.
Qed.



End TaskParser.

(** ** Further properties of the adapters *)









(** ** The budget of the polling loop *)










(** ** The research loop of the stateless adapter, in full *)






(** ** The task selection *)




(** ** The pipeline driver across runs of the script *)
















(** ** Further properties of the task parser *)

Section TaskParserMore.

Local Open Scope list_scope.
Import Rule.


















End TaskParserMore.
